(** * Object construction and identity: Singleton and Builder

  A shallow embedding of [src/creational/singleton/index.ts] and
  [src/creational/builder/index.ts].

  TypeScript classes become state-passing functions.  Static fields of a
  class are the fields of a [World] record; objects created with [new]
  live in a heap (a list, a reference is an index) so that reference
  identity ([===], Jest's [toBe]) is equality of references while value
  equality is equality of the objects stored there.  A [throw] is the
  [Throw] outcome; the state reached before the throw is kept, as in
  JavaScript. *)

From stdpp Require Import gmap strings list fin_maps pretty.
From Stdlib Require Import ZArith.

(** ** JavaScript values, exceptions and the state-and-exception monad *)

Module Js.

(** A reference is an index into the heap. *)
Abbreviation loc := nat.

Inductive Value :=
| VUndefined
| VNull
| VBool (b : bool)
| VNum (n : Z)
| VStr (s : string)
| VRef (l : loc).

(** [!s] on a string: only the empty string is falsy. *)
Definition str_truthy (s : string) : bool :=
  match s with
  | EmptyString => false
  | String _ _ => true
  end.

(** [!x] on a [string | undefined]. *)
Definition opt_truthy (o : option string) : bool :=
  match o with
  | Some s => str_truthy s
  | None => false
  end.

(** ToBoolean. *)
Definition truthy (v : Value) : bool :=
  match v with
  | VUndefined | VNull => false
  | VBool b => b
  | VNum n => negb (n =? 0)%Z
  | VStr s => str_truthy s
  | VRef _ => true
  end.

(** [new Error(message)]; [TypeError] is what a method call on something
    that is not a live instance of the class yields (excluded by the
    TypeScript types, kept so that every function is total). *)
Inductive Exn :=
| Error (message : string)
| TypeError (message : string).

Inductive Result (A : Type) :=
| Ok (a : A)
| Throw (e : Exn).
Arguments Ok {A} a.
Arguments Throw {A} e.

(** A computation over a mutable state [S]. *)
Definition M (S A : Type) : Type := S -> Result A * S.

Definition ret {S A} (a : A) : M S A := fun s => (Ok a, s).

Definition bind {S A B} (m : M S A) (k : A -> M S B) : M S B :=
  fun s =>
    match m s with
    | (Ok a, s') => k a s'
    | (Throw e, s') => (Throw e, s')
    end.

Definition throw {S A} (e : Exn) : M S A := fun s => (Throw e, s).
Definition gets {S A} (f : S -> A) : M S A := fun s => (Ok (f s), s).
Definition modify {S} (f : S -> S) : M S unit := fun s => (Ok tt, f s).

(** The state a computation ends in, whether it returned or threw. *)
Definition state_after {S A} (m : M S A) (s : S) : S := snd (m s).

End Js.
Export Js.

Declare Scope js_scope.
Delimit Scope js_scope with js.
Notation "'let*' x := m 'in' k" := (bind m (fun x => k))
  (at level 10, x name, m at level 100, k at level 200) : js_scope.
Notation "m ;;; k" := (bind m (fun _ => k))
  (at level 100, k at level 200, right associativity) : js_scope.
Local Open Scope js_scope.

(** ** class SingletonRegistry *)

Module SingletonRegistry.

(** An object is a map from property names to values. *)
Record World := mkWorld {
  instances : gmap string Value;            (* private static instances: Map<string, any> *)
  heap : list (gmap string Value)           (* objects the factories have created *)
}.

Definition empty : World := mkWorld ∅ [].

Definition with_instances (f : gmap string Value -> gmap string Value) (w : World) : World :=
  mkWorld (f (instances w)) (heap w).

(** [factory: () => T] is an arbitrary closure: it may return or throw,
    create objects, and call back into the registry. *)
Definition Factory := M World Value.

(** The registry's methods run on the world together with a ghost
    counter of the factory invocations the registry has made.  A factory
    sees the world only. *)
Definition Instrumented : Type := World * nat.

Definition invoke (factory : Factory) : M Instrumented Value :=
  fun '(w, n) => let (r, w') := factory w in (r, (w', S n)).

Definition liftW {A} (m : M World A) : M Instrumented A :=
  fun '(w, n) => let (r, w') := m w in (r, (w', n)).

(** Map.prototype.has / set / get / delete / clear on [instances]. *)
Definition Map_has (key : string) : M World bool :=
  gets (fun w => bool_decide (is_Some (instances w !! key))).
Definition Map_set (key : string) (v : Value) : M World unit :=
  modify (with_instances (insert key v)).
Definition Map_get (key : string) : M World Value :=
  gets (fun w => default VUndefined (instances w !! key)).
Definition Map_delete (key : string) : M World unit :=
  modify (with_instances (delete key)).
Definition Map_clear : M World unit :=
  modify (with_instances (fun _ => ∅)).

Definition getInstance (key : string) (factory : Factory) : M Instrumented Value :=
  let* present := liftW (Map_has key) in
  (if negb present
   then let* v := invoke factory in liftW (Map_set key v)
   else ret tt) ;;;
  liftW (Map_get key).

Definition reset (key : string) : M Instrumented unit := liftW (Map_delete key).
Definition resetAll : M Instrumented unit := liftW Map_clear.
Definition hasInstance (key : string) : M Instrumented bool := liftW (Map_has key).

(** A call made by client code between two observations. *)
Inductive Call :=
| CallGetInstance (key : string) (factory : Factory)
| CallReset (key : string)
| CallResetAll
| CallHasInstance (key : string).

Definition perform (c : Call) (s : Instrumented) : Instrumented :=
  match c with
  | CallGetInstance key factory => state_after (getInstance key factory) s
  | CallReset key => state_after (reset key) s
  | CallResetAll => state_after resetAll s
  | CallHasInstance key => state_after (hasInstance key) s
  end.

Definition performAll (cs : list Call) (s : Instrumented) : Instrumented :=
  foldl (fun s c => perform c s) s cs.

(** A factory that performs no reset of [key]: whatever entry [key] has
    when the factory starts is still there when it ends. *)
Definition factory_keeps (key : string) (factory : Factory) : Prop :=
  forall w v, instances w !! key = Some v ->
              instances (state_after factory w) !! key = Some v.

(** The call is not a reset of [key], directly or through its factory. *)
Definition no_reset_of (key : string) (c : Call) : Prop :=
  match c with
  | CallGetInstance _ factory => factory_keeps key factory
  | CallReset key' => key' <> key
  | CallResetAll => False
  | CallHasInstance _ => True
  end.

(** The factory of the test suite, [() => new TestSingleton()]: a fresh
    object whose [value] is ['test']. *)
Definition newTestSingleton : Factory :=
  fun w => (Ok (VRef (length (heap w))),
            mkWorld (instances w) (heap w ++ [{["value" := VStr "test"]}])).

(** A factory that throws. *)
Definition failing (message : string) : Factory := throw (Error message).

(** A factory that calls back into the registry before it throws:
    [() => { SingletonRegistry.getInstance(key, () => value);
             throw new Error(message) }].
    The nested call runs inside the factory; its own factory invocation
    is not one the outer [getInstance] makes. *)
Definition registers_then_throws (key : string) (value : Value) (message : string) : Factory :=
  fun w =>
    let '(_, (w', _)) := getInstance key (ret value) (w, 0) in
    (Throw (Error message), w').

(** "a thrown error propagates to the caller with the key left unset (no
    partial entry persists)", for every factory: after the throw
    [hasInstance(key)] is false and the mapping is the one before the
    call. *)
Definition throwing_factory_leaves_registry : Prop :=
  forall (key : string) (f : Factory) (w w1 : World) (n : nat) (e : Exn),
    instances w !! key = None ->
    f w = (Throw e, w1) ->
    let s' := state_after (getInstance key f) (w, n) in
    fst (getInstance key f (w, n)) = Throw e /\
    fst (hasInstance key s') = Ok false /\
    instances (fst s') = instances w.

(** A factory of the shape [() => new C()], for a class whose constructor
    only initialises the fields of the new object: it returns a reference
    to one new object and touches nothing else. *)
Definition constructs (factory : Factory) : Prop :=
  forall w, exists o,
    factory w = (Ok (VRef (length (heap w))), mkWorld (instances w) (heap w ++ [o])).

End SingletonRegistry.

(** ** class Singleton *)

Module Singleton.

(** The instance fields of a [Singleton] object. *)
Record Object := mkObject {
  name : string;
  category : string;
  description : string
}.

Record World := mkWorld {
  instance : Value;        (* private static instance: Singleton *)
  isCreating : bool;       (* private static isCreating = false *)
  heap : list Object       (* the Singleton objects constructed so far *)
}.

(** The class as loaded: [instance] is declared without initialiser. *)
Definition initial : World := mkWorld VUndefined false [].

Definition set_instance (v : Value) : M World unit :=
  modify (fun w => mkWorld v (isCreating w) (heap w)).
Definition set_isCreating (b : bool) : M World unit :=
  modify (fun w => mkWorld (instance w) b (heap w)).

(** An object enters the heap when [new] returns it; an object whose
    constructor throws is never reachable and is not recorded. *)
Definition alloc (o : Object) : M World loc :=
  fun w => (Ok (length (heap w)), mkWorld (instance w) (isCreating w) (heap w ++ [o])).

Definition ConstructionForbidden : Exn :=
  Error "Cannot instantiate Singleton directly. Use getInstance() instead.".

(** [new Singleton()]: the private constructor. *)
Definition constructor : M World loc :=
  let* creating := gets isCreating in
  if negb creating
  then throw ConstructionForbidden
  else alloc (mkObject "Singleton" "Creational"
                "Ensures a class has only one instance and provides global access to it").

Definition getInstance : M World Value :=
  let* current := gets instance in
  (if negb (truthy current)
   then set_isCreating true ;;;
        let* fresh := constructor in
        set_instance (VRef fresh) ;;;
        set_isCreating false
   else ret tt) ;;;
  gets instance.

Definition reset : M World unit := set_instance VNull.

(** What client code can do with the class: the two static methods, and
    an attempt to call the constructor directly (the test suite does so
    behind a [@ts-ignore]). *)
Inductive Call :=
| CallGetInstance
| CallReset
| CallNew.

Definition perform (c : Call) (w : World) : World :=
  match c with
  | CallGetInstance => state_after getInstance w
  | CallReset => state_after reset w
  | CallNew => state_after constructor w
  end.

Definition performAll (cs : list Call) (w : World) : World :=
  foldl (fun w c => perform c w) w cs.

(** The slot between two calls: the flag is down, and the slot is empty
    ([undefined] or [null]) or holds a reference to a constructed
    Singleton. *)
Definition settled (w : World) : Prop :=
  isCreating w = false /\
  match instance w with
  | VUndefined | VNull => True
  | VRef l => l < length (heap w)
  | _ => False
  end.

Definition is_reset (c : Call) : bool :=
  match c with
  | CallReset => true
  | _ => false
  end.

End Singleton.

(** ** class LazySingleton *)

Module LazySingleton.

Record Object := mkObject {
  data : string
}.

Record World := mkWorld {
  _instance : Value;       (* private static _instance: LazySingleton | null = null *)
  heap : list Object
}.

Definition initial : World := mkWorld VNull [].

Definition set_instance (v : Value) : M World unit :=
  modify (fun w => mkWorld v (heap w)).

Definition alloc (o : Object) : M World loc :=
  fun w => (Ok (length (heap w)), mkWorld (_instance w) (heap w ++ [o])).

(** [new LazySingleton()].  [now] is what [new Date().toISOString()]
    yields at the moment of the call; it is an input of the model. *)
Definition constructor (now : string) : M World loc :=
  alloc (mkObject ("Created at " +:+ now)).

(** [static get instance()]. *)
Definition get_instance (now : string) : M World Value :=
  let* current := gets _instance in
  (if negb (truthy current)
   then let* fresh := constructor now in set_instance (VRef fresh)
   else ret tt) ;;;
  gets _instance.

Definition reset : M World unit := set_instance VNull.

(** [getData()] *)
Definition getData (this : loc) : M World string :=
  fun w =>
    match heap w !! this with
    | Some o => (Ok (data o), w)
    | None => (Throw (TypeError "receiver is not an instance of the class"), w)
    end.

End LazySingleton.

(** ** The Builder pattern: Computer, its builders and the director *)

Module Builder.

(** *** class Computer *)

Record Computer := mkComputer {
  name : string;
  features : list string;
  cpu : string;
  ram : string;
  storage : string;
  gpu : option string;             (* gpu?: string, [None] is undefined *)
  powerSupply : option string;
  motherboard : option string
}.

(** [if (x) this.features.push(x)] *)
Definition push_if_truthy (x : option string) (fs : list string) : list string :=
  match x with
  | Some s => if str_truthy s then fs ++ [s] else fs
  | None => fs
  end.

(** The object that [new Computer(cpu, ram, storage, gpu, powerSupply,
    motherboard)] initialises. *)
Definition Computer_init (cpu ram storage : string)
    (gpu powerSupply motherboard : option string) : Computer :=
  mkComputer "Custom Computer"
    (push_if_truthy motherboard
       (push_if_truthy powerSupply
          (push_if_truthy gpu [cpu; ram; storage])))
    cpu ram storage gpu powerSupply motherboard.

(** *** Instance fields of the three builder classes *)

(** ConcreteComputerBuilder (its three readonly descriptive constants are
    left out). *)
Record ConcreteFields := mkConcrete {
  c_cpu : string;
  c_ram : string;
  c_storage : string;
  c_gpu : option string;
  c_powerSupply : option string;
  c_motherboard : option string
}.

(** FluentComputerBuilder: [private computer: Partial<Computer> = {}];
    only these six properties are ever written or read. *)
Record FluentFields := mkFluent {
  f_cpu : option string;
  f_ram : option string;
  f_storage : option string;
  f_gpu : option string;
  f_powerSupply : option string;
  f_motherboard : option string
}.

(** StepComputerBuilder. *)
Record StepFields := mkStep {
  cpuValue : string;
  ramValue : string;
  storageValue : string;
  gpuValue : option string;
  powerSupplyValue : option string;
  motherboardValue : option string
}.

(** *** The heap *)

Inductive Obj :=
| ObjComputer (c : Computer)
| ObjConcrete (b : ConcreteFields)
| ObjFluent (b : FluentFields)
| ObjStep (b : StepFields).

Abbreviation Heap := (list Obj).

Definition alloc (o : Obj) : M Heap loc :=
  fun h => (Ok (length h), h ++ [o]).

Definition RequiredMissing : Exn := Error "CPU, RAM, and Storage are required".

Definition NotAnInstance : Exn := TypeError "receiver is not an instance of the class".

(** A computation that throws and leaves the heap as it is, or returns a
    reference to a new Computer put after the objects that were there. *)
Definition throws_or_appends (m : M Heap loc) (h : Heap) : Prop :=
  (exists e, m h = (Throw e, h)) \/
  (exists c, m h = (Ok (length h), h ++ [ObjComputer c])).

(** [Array.prototype.join] on an array of strings. *)
Fixpoint join (sep : string) (l : list string) : string :=
  match l with
  | [] => ""
  | [x] => x
  | x :: rest => x +:+ sep +:+ join sep rest
  end.

(** [Computer.getInfo()] *)
Definition getInfo (this : Computer) : string :=
  name this +:+ ": " +:+ join ", " (features this).

(** The Computer a [build()] has returned a reference to, if it did. *)
Definition built (r : Result loc * Heap) : option Computer :=
  match r with
  | (Ok p, h) =>
      match h !! p with
      | Some (ObjComputer c) => Some c
      | _ => None
      end
  | (Throw _, _) => None
  end.

End Builder.
Export Builder.

(** *** class ConcreteComputerBuilder *)

Module ConcreteComputerBuilder.

(** The field initialisers. *)
Definition fresh : ConcreteFields := mkConcrete "" "" "" None None None.

Definition new : M Heap loc := alloc (ObjConcrete fresh).

Definition load (this : loc) : M Heap ConcreteFields :=
  fun h =>
    match h !! this with
    | Some (ObjConcrete b) => (Ok b, h)
    | _ => (Throw NotAnInstance, h)
    end.

Definition store (this : loc) (b : ConcreteFields) : M Heap unit :=
  modify (fun h => <[this := ObjConcrete b]> h).

(** The assignments the methods make to the fields of [this]. *)
Definition assign_cpu (cpu : string) (b : ConcreteFields) : ConcreteFields :=
  mkConcrete cpu (c_ram b) (c_storage b) (c_gpu b) (c_powerSupply b) (c_motherboard b).
Definition assign_ram (ram : string) (b : ConcreteFields) : ConcreteFields :=
  mkConcrete (c_cpu b) ram (c_storage b) (c_gpu b) (c_powerSupply b) (c_motherboard b).
Definition assign_storage (storage : string) (b : ConcreteFields) : ConcreteFields :=
  mkConcrete (c_cpu b) (c_ram b) storage (c_gpu b) (c_powerSupply b) (c_motherboard b).
Definition assign_gpu (gpu : option string) (b : ConcreteFields) : ConcreteFields :=
  mkConcrete (c_cpu b) (c_ram b) (c_storage b) gpu (c_powerSupply b) (c_motherboard b).
Definition assign_powerSupply (powerSupply : option string) (b : ConcreteFields) : ConcreteFields :=
  mkConcrete (c_cpu b) (c_ram b) (c_storage b) (c_gpu b) powerSupply (c_motherboard b).
Definition assign_motherboard (motherboard : option string) (b : ConcreteFields) : ConcreteFields :=
  mkConcrete (c_cpu b) (c_ram b) (c_storage b) (c_gpu b) (c_powerSupply b) motherboard.

Definition setCPU (this : loc) (cpu : string) : M Heap loc :=
  let* b := load this in
  store this (assign_cpu cpu b) ;;;
  ret this.

Definition setRAM (this : loc) (ram : string) : M Heap loc :=
  let* b := load this in
  store this (assign_ram ram b) ;;;
  ret this.

Definition setStorage (this : loc) (storage : string) : M Heap loc :=
  let* b := load this in
  store this (assign_storage storage b) ;;;
  ret this.

Definition setGPU (this : loc) (gpu : string) : M Heap loc :=
  let* b := load this in
  store this (assign_gpu (Some gpu) b) ;;;
  ret this.

Definition setPowerSupply (this : loc) (powerSupply : string) : M Heap loc :=
  let* b := load this in
  store this (assign_powerSupply (Some powerSupply) b) ;;;
  ret this.

Definition setMotherboard (this : loc) (motherboard : string) : M Heap loc :=
  let* b := load this in
  store this (assign_motherboard (Some motherboard) b) ;;;
  ret this.

Definition build (this : loc) : M Heap loc :=
  let* b := load this in
  if negb (str_truthy (c_cpu b)) || negb (str_truthy (c_ram b)) || negb (str_truthy (c_storage b))
  then throw RequiredMissing
  else alloc (ObjComputer
                (Computer_init (c_cpu b) (c_ram b) (c_storage b)
                   (c_gpu b) (c_powerSupply b) (c_motherboard b))).

(** [reset()] assigns [''] to each of the six fields in turn. *)
Definition cleared (b : ConcreteFields) : ConcreteFields :=
  assign_motherboard (Some "")
    (assign_powerSupply (Some "")
       (assign_gpu (Some "")
          (assign_storage "" (assign_ram "" (assign_cpu "" b))))).

Definition reset (this : loc) : M Heap loc :=
  let* b := load this in
  store this (cleared b) ;;;
  ret this.

(** The calls that change a builder, as client code chains them. *)
Inductive Field := CPU | RAM | Storage | GPU | PowerSupply | Motherboard.

Inductive Call :=
| CallSet (f : Field) (value : string)
| CallReset.

Definition perform (this : loc) (c : Call) : M Heap loc :=
  match c with
  | CallSet CPU v => setCPU this v
  | CallSet RAM v => setRAM this v
  | CallSet Storage v => setStorage this v
  | CallSet GPU v => setGPU this v
  | CallSet PowerSupply v => setPowerSupply this v
  | CallSet Motherboard v => setMotherboard this v
  | CallReset => reset this
  end.

(** [this.c1(..).c2(..)...]: each call is made on what the previous one
    returned. *)
Fixpoint chain (this : loc) (cs : list Call) : M Heap loc :=
  match cs with
  | [] => ret this
  | c :: cs' => let* next := perform this c in chain next cs'
  end.

(** [new ConcreteComputerBuilder().c1(..)...cn(..).build()] *)
Definition build_after (cs : list Call) : M Heap loc :=
  let* b := new in
  let* b := chain b cs in
  build b.

(** What a call assigns, and the fields of a builder on which [cs] were
    called since its creation. *)
Definition effect (c : Call) : ConcreteFields -> ConcreteFields :=
  match c with
  | CallSet CPU v => assign_cpu v
  | CallSet RAM v => assign_ram v
  | CallSet Storage v => assign_storage v
  | CallSet GPU v => assign_gpu (Some v)
  | CallSet PowerSupply v => assign_powerSupply (Some v)
  | CallSet Motherboard v => assign_motherboard (Some v)
  | CallReset => cleared
  end.

Definition fields_after (cs : list Call) (b : ConcreteFields) : ConcreteFields :=
  foldl (fun b c => effect c b) b cs.

End ConcreteComputerBuilder.

(** *** class ComputerDirector *)

Module ComputerDirector.

(** [constructor(private builder: ComputerBuilder)]; the interface has one
    implementation in the source, ConcreteComputerBuilder, and the calls
    below dispatch to it. *)
Record Object := mkDirector {
  builder : loc
}.

Import ConcreteComputerBuilder.

Definition buildGamingComputer (this : Object) : M Heap loc :=
  let* b := reset (builder this) in
  let* b := setCPU b "Intel i9-11900K" in
  let* b := setRAM b "32GB DDR4" in
  let* b := setStorage b "1TB NVMe SSD" in
  let* b := setGPU b "RTX 3080" in
  let* b := setPowerSupply b "850W Gold" in
  let* b := setMotherboard b "ASUS ROG Strix Z590-E" in
  build b.

Definition buildOfficeComputer (this : Object) : M Heap loc :=
  let* b := reset (builder this) in
  let* b := setCPU b "Intel i5-11400" in
  let* b := setRAM b "16GB DDR4" in
  let* b := setStorage b "512GB SSD" in
  let* b := setMotherboard b "MSI B560M Pro" in
  build b.

Definition buildServerComputer (this : Object) : M Heap loc :=
  let* b := reset (builder this) in
  let* b := setCPU b "AMD EPYC 7742" in
  let* b := setRAM b "128GB DDR4 ECC" in
  let* b := setStorage b "2TB NVMe SSD" in
  let* b := setPowerSupply b "1200W Platinum" in
  let* b := setMotherboard b "Supermicro H12SSL-i" in
  build b.

End ComputerDirector.

(** *** class FluentComputerBuilder *)

Module FluentComputerBuilder.

Definition fresh : FluentFields := mkFluent None None None None None None.

Definition new : M Heap loc := alloc (ObjFluent fresh).

Definition load (this : loc) : M Heap FluentFields :=
  fun h =>
    match h !! this with
    | Some (ObjFluent b) => (Ok b, h)
    | _ => (Throw NotAnInstance, h)
    end.

Definition store (this : loc) (b : FluentFields) : M Heap unit :=
  modify (fun h => <[this := ObjFluent b]> h).

Definition cpu (this : loc) (cpu : string) : M Heap loc :=
  let* b := load this in
  store this (mkFluent (Some cpu) (f_ram b) (f_storage b) (f_gpu b) (f_powerSupply b) (f_motherboard b)) ;;;
  ret this.

Definition ram (this : loc) (ram : string) : M Heap loc :=
  let* b := load this in
  store this (mkFluent (f_cpu b) (Some ram) (f_storage b) (f_gpu b) (f_powerSupply b) (f_motherboard b)) ;;;
  ret this.

Definition storage (this : loc) (storage : string) : M Heap loc :=
  let* b := load this in
  store this (mkFluent (f_cpu b) (f_ram b) (Some storage) (f_gpu b) (f_powerSupply b) (f_motherboard b)) ;;;
  ret this.

Definition gpu (this : loc) (gpu : string) : M Heap loc :=
  let* b := load this in
  store this (mkFluent (f_cpu b) (f_ram b) (f_storage b) (Some gpu) (f_powerSupply b) (f_motherboard b)) ;;;
  ret this.

Definition powerSupply (this : loc) (powerSupply : string) : M Heap loc :=
  let* b := load this in
  store this (mkFluent (f_cpu b) (f_ram b) (f_storage b) (f_gpu b) (Some powerSupply) (f_motherboard b)) ;;;
  ret this.

Definition motherboard (this : loc) (motherboard : string) : M Heap loc :=
  let* b := load this in
  store this (mkFluent (f_cpu b) (f_ram b) (f_storage b) (f_gpu b) (f_powerSupply b) (Some motherboard)) ;;;
  ret this.

(** After the guard the three required values are strings; the [None]
    branches below are the ones the guard has excluded. *)
Definition build (this : loc) : M Heap loc :=
  let* b := load this in
  if negb (opt_truthy (f_cpu b)) || negb (opt_truthy (f_ram b)) || negb (opt_truthy (f_storage b))
  then throw RequiredMissing
  else alloc (ObjComputer
                (Computer_init (default "" (f_cpu b)) (default "" (f_ram b))
                   (default "" (f_storage b))
                   (f_gpu b) (f_powerSupply b) (f_motherboard b))).

Definition perform (this : loc) (f : ConcreteComputerBuilder.Field) (v : string) : M Heap loc :=
  match f with
  | ConcreteComputerBuilder.CPU => cpu this v
  | ConcreteComputerBuilder.RAM => ram this v
  | ConcreteComputerBuilder.Storage => storage this v
  | ConcreteComputerBuilder.GPU => gpu this v
  | ConcreteComputerBuilder.PowerSupply => powerSupply this v
  | ConcreteComputerBuilder.Motherboard => motherboard this v
  end.

Fixpoint chain (this : loc) (cs : list (ConcreteComputerBuilder.Field * string)) : M Heap loc :=
  match cs with
  | [] => ret this
  | (f, v) :: cs' => let* next := perform this f v in chain next cs'
  end.

(** [new FluentComputerBuilder().c1(..)...cn(..).build()] *)
Definition build_after (cs : list (ConcreteComputerBuilder.Field * string)) : M Heap loc :=
  let* b := new in
  let* b := chain b cs in
  build b.

(** What a setter assigns. *)
Definition effect (f : ConcreteComputerBuilder.Field) (v : string) (b : FluentFields) : FluentFields :=
  match f with
  | ConcreteComputerBuilder.CPU =>
      mkFluent (Some v) (f_ram b) (f_storage b) (f_gpu b) (f_powerSupply b) (f_motherboard b)
  | ConcreteComputerBuilder.RAM =>
      mkFluent (f_cpu b) (Some v) (f_storage b) (f_gpu b) (f_powerSupply b) (f_motherboard b)
  | ConcreteComputerBuilder.Storage =>
      mkFluent (f_cpu b) (f_ram b) (Some v) (f_gpu b) (f_powerSupply b) (f_motherboard b)
  | ConcreteComputerBuilder.GPU =>
      mkFluent (f_cpu b) (f_ram b) (f_storage b) (Some v) (f_powerSupply b) (f_motherboard b)
  | ConcreteComputerBuilder.PowerSupply =>
      mkFluent (f_cpu b) (f_ram b) (f_storage b) (f_gpu b) (Some v) (f_motherboard b)
  | ConcreteComputerBuilder.Motherboard =>
      mkFluent (f_cpu b) (f_ram b) (f_storage b) (f_gpu b) (f_powerSupply b) (Some v)
  end.

Definition fields_after (cs : list (ConcreteComputerBuilder.Field * string)) (b : FluentFields)
    : FluentFields :=
  foldl (fun b c => effect (fst c) (snd c) b) b cs.

End FluentComputerBuilder.

(** *** class StepComputerBuilder *)

Module StepComputerBuilder.

Definition fresh : StepFields := mkStep "" "" "" None None None.

(** [static create()] *)
Definition create : M Heap loc := alloc (ObjStep fresh).

Definition load (this : loc) : M Heap StepFields :=
  fun h =>
    match h !! this with
    | Some (ObjStep b) => (Ok b, h)
    | _ => (Throw NotAnInstance, h)
    end.

Definition store (this : loc) (b : StepFields) : M Heap unit :=
  modify (fun h => <[this := ObjStep b]> h).

Definition cpu (this : loc) (cpu : string) : M Heap loc :=
  let* b := load this in
  store this (mkStep cpu (ramValue b) (storageValue b) (gpuValue b) (powerSupplyValue b) (motherboardValue b)) ;;;
  ret this.

Definition ram (this : loc) (ram : string) : M Heap loc :=
  let* b := load this in
  store this (mkStep (cpuValue b) ram (storageValue b) (gpuValue b) (powerSupplyValue b) (motherboardValue b)) ;;;
  ret this.

Definition storage (this : loc) (storage : string) : M Heap loc :=
  let* b := load this in
  store this (mkStep (cpuValue b) (ramValue b) storage (gpuValue b) (powerSupplyValue b) (motherboardValue b)) ;;;
  ret this.

Definition gpu (this : loc) (gpu : string) : M Heap loc :=
  let* b := load this in
  store this (mkStep (cpuValue b) (ramValue b) (storageValue b) (Some gpu) (powerSupplyValue b) (motherboardValue b)) ;;;
  ret this.

Definition powerSupply (this : loc) (powerSupply : string) : M Heap loc :=
  let* b := load this in
  store this (mkStep (cpuValue b) (ramValue b) (storageValue b) (gpuValue b) (Some powerSupply) (motherboardValue b)) ;;;
  ret this.

Definition motherboard (this : loc) (motherboard : string) : M Heap loc :=
  let* b := load this in
  store this (mkStep (cpuValue b) (ramValue b) (storageValue b) (gpuValue b) (powerSupplyValue b) (Some motherboard)) ;;;
  ret this.

Definition build (this : loc) : M Heap loc :=
  let* b := load this in
  if negb (str_truthy (cpuValue b)) || negb (str_truthy (ramValue b)) || negb (str_truthy (storageValue b))
  then throw RequiredMissing
  else alloc (ObjComputer
                (Computer_init (cpuValue b) (ramValue b) (storageValue b)
                   (gpuValue b) (powerSupplyValue b) (motherboardValue b))).

Definition perform (this : loc) (f : ConcreteComputerBuilder.Field) (v : string) : M Heap loc :=
  match f with
  | ConcreteComputerBuilder.CPU => cpu this v
  | ConcreteComputerBuilder.RAM => ram this v
  | ConcreteComputerBuilder.Storage => storage this v
  | ConcreteComputerBuilder.GPU => gpu this v
  | ConcreteComputerBuilder.PowerSupply => powerSupply this v
  | ConcreteComputerBuilder.Motherboard => motherboard this v
  end.

Fixpoint chain (this : loc) (cs : list (ConcreteComputerBuilder.Field * string)) : M Heap loc :=
  match cs with
  | [] => ret this
  | (f, v) :: cs' => let* next := perform this f v in chain next cs'
  end.

(** [StepComputerBuilder.create().c1(..)...cn(..).build()] *)
Definition build_after (cs : list (ConcreteComputerBuilder.Field * string)) : M Heap loc :=
  let* b := create in
  let* b := chain b cs in
  build b.

(** What a setter assigns. *)
Definition effect (f : ConcreteComputerBuilder.Field) (v : string) (b : StepFields) : StepFields :=
  match f with
  | ConcreteComputerBuilder.CPU =>
      mkStep v (ramValue b) (storageValue b) (gpuValue b) (powerSupplyValue b) (motherboardValue b)
  | ConcreteComputerBuilder.RAM =>
      mkStep (cpuValue b) v (storageValue b) (gpuValue b) (powerSupplyValue b) (motherboardValue b)
  | ConcreteComputerBuilder.Storage =>
      mkStep (cpuValue b) (ramValue b) v (gpuValue b) (powerSupplyValue b) (motherboardValue b)
  | ConcreteComputerBuilder.GPU =>
      mkStep (cpuValue b) (ramValue b) (storageValue b) (Some v) (powerSupplyValue b) (motherboardValue b)
  | ConcreteComputerBuilder.PowerSupply =>
      mkStep (cpuValue b) (ramValue b) (storageValue b) (gpuValue b) (Some v) (motherboardValue b)
  | ConcreteComputerBuilder.Motherboard =>
      mkStep (cpuValue b) (ramValue b) (storageValue b) (gpuValue b) (powerSupplyValue b) (Some v)
  end.

Definition fields_after (cs : list (ConcreteComputerBuilder.Field * string)) (b : StepFields)
    : StepFields :=
  foldl (fun b c => effect (fst c) (snd c) b) b cs.

End StepComputerBuilder.

(** *** abstract class GenericBuilder<T> *)

Module GenericBuilder.

(** A subclass supplies its instance fields [S] and the two abstract
    methods. *)
Class Subclass (S T : Type) := {
  buildImplementation : M S T;
  reset : M S unit
}.

Definition build {S T} `{Subclass S T} : M S T :=
  let* result := buildImplementation in
  reset ;;;
  ret result.

(** A least subclass to run the abstract class on (it is not in the
    source): one string field, returned by [buildImplementation] and set
    back to [''] by [reset]. *)
#[export] Instance TextBuilder : Subclass string string := {
  buildImplementation := gets (fun text => text);
  reset := modify (fun _ => "")
}.

(** "build() never resets the builder", read on this class: whatever the
    subclass, [build()] leaves the fields as they were. *)
Definition build_leaves_state : Prop :=
  forall (S T : Type) (sub : Subclass S T) (s : S),
    state_after (@build S T sub) s = s.

End GenericBuilder.

(** ** The specification's StagedBuilder, in its own words *)

Module StagedBuilderSpec.

Import ConcreteComputerBuilder.

Definition Field_eqb (f g : Field) : bool :=
  match f, g with
  | CPU, CPU | RAM, RAM | Storage, Storage
  | GPU, GPU | PowerSupply, PowerSupply | Motherboard, Motherboard => true
  | _, _ => false
  end.

(** BuilderState, "a mutable mapping from field name to optional value":
    a setter sets its field to the value passed, "with no additional
    validation at set time"; [reset] "clears every field (required and
    optional) to unset". *)
Definition BuilderState := Field -> option string.

Definition unset : BuilderState := fun _ => None.

Definition apply (st : BuilderState) (c : Call) : BuilderState :=
  match c with
  | CallSet f v => fun g => if Field_eqb f g then Some v else st g
  | CallReset => unset
  end.

Definition state_of (cs : list Call) : BuilderState := foldl apply unset cs.

(** The required fields, in declaration order. *)
Definition required : list Field := [CPU; RAM; Storage].

(** "the first missing required field encountered, in a fixed, stable
    field-declaration order" *)
Definition first_missing (st : BuilderState) : option Field :=
  List.find (fun f => match st f with None => true | Some _ => false end) required.

(** The field of the same name in a Product. *)
Definition product_field (c : Computer) (f : Field) : option string :=
  match f with
  | CPU => Some (cpu c)
  | RAM => Some (ram c)
  | Storage => Some (storage c)
  | GPU => gpu c
  | PowerSupply => powerSupply c
  | Motherboard => motherboard c
  end.

(** No [reset()] among the calls. *)
Definition is_set (c : Call) : bool :=
  match c with
  | CallReset => false
  | CallSet _ _ => true
  end.

Definition never_reset (cs : list Call) : bool := forallb is_set cs.

(** How a ConcreteComputerBuilder holds a BuilderState.  An unset required
    field is held as ['']; an unset optional field is held as [undefined]
    on a builder that was never reset and as [''] once it was. *)
Definition held_optional (never : bool) (o : option string) : option string :=
  match o with
  | Some v => Some v
  | None => if never then None else Some ""
  end.

Definition holds (b : ConcreteFields) (never : bool) (st : BuilderState) : Prop :=
  c_cpu b = default "" (st CPU) /\
  c_ram b = default "" (st RAM) /\
  c_storage b = default "" (st Storage) /\
  c_gpu b = held_optional never (st GPU) /\
  c_powerSupply b = held_optional never (st PowerSupply) /\
  c_motherboard b = held_optional never (st Motherboard).

(** The two sentences of the specification about [build()], as they are
    written.  "fails with MissingRequiredField(fieldName)": the error
    thrown tells which field is the first missing one, [named] being the
    way to read the field off the error. *)
Definition build_names_first_missing (named : Exn -> option Field) : Prop :=
  forall cs f,
    first_missing (state_of cs) = Some f ->
    exists e h, build_after cs [] = (Throw e, h) /\ named e = Some f.

(** "with all required fields set succeeds and returns a Product whose
    fields equal exactly what was set" *)
Definition build_returns_fields_as_set : Prop :=
  forall cs c r s,
    state_of cs CPU = Some c ->
    state_of cs RAM = Some r ->
    state_of cs Storage = Some s ->
    exists p h product,
      build_after cs [] = (Ok p, h) /\
      h !! p = Some (ObjComputer product) /\
      forall f, product_field product f = state_of cs f.

End StagedBuilderSpec.

(** ** class DatabaseConnection (singleton/example.ts)

    A client of the registry: its instance is the registry entry
    ['DatabaseConnection'], its fields are the properties of the object the
    factory creates. *)

Module DatabaseConnection.

Import SingletonRegistry.

(** The registry's world and counter, and the lines written by
    [console.log]. *)
Record Process := mkProcess {
  world : World;
  invocations : nat;
  console : list string
}.

Definition liftRegistry {A} (m : M Instrumented A) : M Process A :=
  fun p =>
    let '(r, (w, n)) := m (world p, invocations p) in
    (r, mkProcess w n (console p)).

Definition console_log (line : string) : M Process unit :=
  modify (fun p => mkProcess (world p) (invocations p) (console p ++ [line])).

(** [this.name], read and written. *)
Definition get_field (this : loc) (name : string) : M Process Value :=
  fun p =>
    match heap (world p) !! this with
    | Some o => (Ok (default VUndefined (o !! name)), p)
    | None => (Throw (TypeError "receiver is not an instance of the class"), p)
    end.

Definition set_field (this : loc) (name : string) (v : Value) : M Process unit :=
  fun p =>
    match heap (world p) !! this with
    | Some o =>
        (Ok tt,
         mkProcess
           (mkWorld (instances (world p)) (<[this := <[name := v]> o]> (heap (world p))))
           (invocations p) (console p))
    | None => (Throw (TypeError "receiver is not an instance of the class"), p)
    end.

Definition alloc (o : gmap string Value) : M Process loc :=
  fun p =>
    (Ok (length (heap (world p))),
     mkProcess (mkWorld (instances (world p)) (heap (world p) ++ [o]))
       (invocations p) (console p)).

(** A value inside a template literal. *)
Definition to_string (v : Value) : string :=
  match v with
  | VUndefined => "undefined"
  | VNull => "null"
  | VBool true => "true"
  | VBool false => "false"
  | VNum n => pretty n
  | VStr s => s
  | VRef _ => "[object Object]"
  end.

(** [() => new DatabaseConnection()]: [isConnected = false], then the
    constructor sets [connectionString]. *)
Definition new : Factory :=
  fun w =>
    (Ok (VRef (length (heap w))),
     mkWorld (instances w)
       (heap w ++ [ <["connectionString" := VStr "mongodb://localhost:27017/myapp"]>
                      {["isConnected" := VBool false]} ])).

Definition getInstance : M Process Value :=
  liftRegistry (SingletonRegistry.getInstance "DatabaseConnection" new).

Definition connect (this : loc) : M Process unit :=
  let* connected := get_field this "isConnected" in
  if negb (truthy connected)
  then let* target := get_field this "connectionString" in
       console_log ("Connecting to database: " +:+ to_string target) ;;;
       set_field this "isConnected" (VBool true)
  else ret tt.

Definition disconnect (this : loc) : M Process unit :=
  let* connected := get_field this "isConnected" in
  if truthy connected
  then console_log "Disconnecting from database" ;;;
       set_field this "isConnected" (VBool false)
  else ret tt.

Definition isConnectionOpen (this : loc) : M Process Value :=
  get_field this "isConnected".

(** [query(sql)] returns [[{ id: 1, name: 'Sample Data' }]]: a new array
    (an object with the property ["0"] and [length]) holding a new row. *)
Definition query (this : loc) (sql : string) : M Process Value :=
  let* connected := get_field this "isConnected" in
  if negb (truthy connected)
  then throw (Error "Database not connected")
  else console_log ("Executing query: " +:+ sql) ;;;
       let* row := alloc (<["name" := VStr "Sample Data"]> {["id" := VNum 1]}) in
       let* rows := alloc (<["length" := VNum 1]> {["0" := VRef row]}) in
       ret (VRef rows).

(** [db.method(..)] on a value [db] obtained from [getInstance()]. *)
Definition on {A} (db : Value) (method : loc -> M Process A) : M Process A :=
  match db with
  | VRef this => method this
  | _ => throw (TypeError "receiver is not an instance of the class")
  end.

(** The object a new DatabaseConnection is. *)
Definition fresh : gmap string Value :=
  <["connectionString" := VStr "mongodb://localhost:27017/myapp"]>
    {["isConnected" := VBool false]}.

End DatabaseConnection.

(** * Properties *)

(** ** SingletonRegistry *)

Section RegistryFacts.

Import SingletonRegistry.

Lemma getInstance_present key (g : Factory) w n v :
  instances w !! key = Some v ->
  getInstance key g (w, n) = (Ok v, (w, n)).
Proof.
  intros Hk. unfold getInstance, bind, liftW, Map_has, Map_get, gets, ret. simpl.
  rewrite bool_decide_eq_true_2 by eauto. simpl. rewrite Hk. reflexivity.
Qed.

Lemma getInstance_absent_returns key (f : Factory) w w1 n v :
  instances w !! key = None ->
  f w = (Ok v, w1) ->
  getInstance key f (w, n) = (Ok v, (with_instances (insert key v) w1, S n)).
Proof.
  intros Hk Hf.
  unfold getInstance, bind, liftW, invoke, Map_has, Map_set, Map_get, gets, modify, ret. simpl.
  rewrite Hk. rewrite bool_decide_eq_false_2 by (intros [x Hx]; discriminate). simpl.
  rewrite Hf. simpl. rewrite lookup_insert_eq. reflexivity.
Qed.

Lemma getInstance_absent_throws key (f : Factory) w w1 n e :
  instances w !! key = None ->
  f w = (Throw e, w1) ->
  getInstance key f (w, n) = (Throw e, (w1, S n)).
Proof.
  intros Hk Hf.
  unfold getInstance, bind, liftW, invoke, Map_has, gets. simpl.
  rewrite Hk. rewrite bool_decide_eq_false_2 by (intros [x Hx]; discriminate). simpl.
  rewrite Hf. reflexivity.
Qed.

(** A call that is not a reset of [key] leaves the entry of [key] alone. *)
Lemma perform_keeps key c s v :
  no_reset_of key c ->
  instances (fst s) !! key = Some v ->
  instances (fst (perform c s)) !! key = Some v.
Proof.
  destruct s as [w n]. destruct c as [k' f | k' | | k']; simpl; intros Hc Hk.
  - unfold state_after. destruct (instances w !! k') as [v'|] eqn:Hk'.
    + rewrite (getInstance_present _ _ _ _ _ Hk'). exact Hk.
    + assert (k' <> key) as Hne by congruence.
      specialize (Hc w v Hk). unfold state_after in Hc.
      destruct (f w) as [[v'|e] w1] eqn:Hf; simpl in Hc.
      * rewrite (getInstance_absent_returns _ _ _ _ _ _ Hk' Hf). simpl.
        rewrite lookup_insert_ne by exact Hne. exact Hc.
      * rewrite (getInstance_absent_throws _ _ _ _ _ _ Hk' Hf). exact Hc.
  - rewrite lookup_delete_ne by exact Hc. exact Hk.
  - contradiction.
  - exact Hk.
Qed.

Lemma performAll_keeps key cs : forall s v,
  Forall (no_reset_of key) cs ->
  instances (fst s) !! key = Some v ->
  instances (fst (performAll cs s)) !! key = Some v.
Proof.
  induction cs as [|c cs IH]; intros s v Hcs Hk; simpl.
  - exact Hk.
  - inversion Hcs as [|c' cs' Hc Hrest]; subst.
    apply IH; [exact Hrest|]. apply perform_keeps; assumption.
Qed.

End RegistryFacts.

(** C1.  The first [getInstance(key, f)] for an absent key invokes [f]
    exactly once (the invocation counter goes from [n] to [n + 1], and the
    world is the one a single run of [f] leaves, with the entry added),
    stores the value [f] returned under [key] and returns it.  After any
    later calls none of which resets [key], [getInstance(key, g)] returns
    that very value, a reference being returned as the same reference, and
    changes neither the world nor the counter: [g] is not invoked. *)
Theorem registry_getInstance_once_then_identical
    (key : string) (f : SingletonRegistry.Factory)
    (w w1 : SingletonRegistry.World) (n : nat) (v : Value) :
  SingletonRegistry.instances w !! key = None ->
  f w = (Ok v, w1) ->
  let s1 := (SingletonRegistry.with_instances (insert key v) w1, S n) in
  SingletonRegistry.getInstance key f (w, n) = (Ok v, s1) /\
  SingletonRegistry.instances (fst s1) !! key = Some v /\
  forall (cs : list SingletonRegistry.Call) (g : SingletonRegistry.Factory),
    Forall (SingletonRegistry.no_reset_of key) cs ->
    SingletonRegistry.getInstance key g (SingletonRegistry.performAll cs s1)
    = (Ok v, SingletonRegistry.performAll cs s1).
Proof.
  intros Hk Hf s1.
  assert (SingletonRegistry.instances (fst s1) !! key = Some v) as Hstored.
  { subst s1. simpl. apply lookup_insert_eq. }
  split; [|split].
  - apply getInstance_absent_returns; assumption.
  - exact Hstored.
  - intros cs g Hcs.
    pose proof (performAll_keeps key cs s1 v Hcs Hstored) as Hlater.
    destruct (SingletonRegistry.performAll cs s1) as [w' n'].
    apply getInstance_present. exact Hlater.
Qed.

Lemma registry_getInstance_once_then_identical_witness :
  let s1 := (SingletonRegistry.with_instances (insert "TestSingleton" (VRef 0))
               (SingletonRegistry.mkWorld ∅ [{["value" := VStr "test"]}]), 1) in
  SingletonRegistry.getInstance "TestSingleton" SingletonRegistry.newTestSingleton
    (SingletonRegistry.empty, 0) = (Ok (VRef 0), s1) /\
  SingletonRegistry.instances (fst s1) !! "TestSingleton" = Some (VRef 0) /\
  forall (cs : list SingletonRegistry.Call) (g : SingletonRegistry.Factory),
    Forall (SingletonRegistry.no_reset_of "TestSingleton") cs ->
    SingletonRegistry.getInstance "TestSingleton" g (SingletonRegistry.performAll cs s1)
    = (Ok (VRef 0), SingletonRegistry.performAll cs s1).
Proof.
  apply (registry_getInstance_once_then_identical
           "TestSingleton" SingletonRegistry.newTestSingleton
           SingletonRegistry.empty
           (SingletonRegistry.mkWorld ∅ [{["value" := VStr "test"]}]) 0 (VRef 0)).
  - reflexivity.
  - reflexivity.
Defined.

(** C6, as stated, fails for a factory that touches the registry before
    it throws.  [() => { SingletonRegistry.getInstance('Database', () => 1);
    throw new Error('no connection') }], given to
    [getInstance('Database', ..)] on an empty registry, throws, and
    afterwards [hasInstance('Database')] is true: the entry the factory
    made is still there. *)
Lemma throwing_factory_can_leave_an_entry :
  ~ SingletonRegistry.throwing_factory_leaves_registry.
Proof.
  intros Hclaim.
  destruct (Hclaim "Database"
              (SingletonRegistry.registers_then_throws "Database" (VNum 1) "no connection")
              SingletonRegistry.empty
              (SingletonRegistry.mkWorld {["Database" := VNum 1]} [])
              0 (Error "no connection") eq_refl eq_refl)
    as (_ & Hhas & _).
  vm_compute in Hhas. discriminate.
Qed.

(** C6, amended.  When the factory throws for an absent key,
    [getInstance] throws the same error after that single invocation and
    itself adds no entry: the registry, the objects and all the rest are
    exactly as the factory left them, and [hasInstance(key)] afterwards
    tells whether the factory itself registered [key].  When the factory
    left the mapping as it was, [hasInstance(key)] is false afterwards
    and the mapping is the one before the call. *)
Theorem registry_factory_throws_adds_no_entry
    (key : string) (f : SingletonRegistry.Factory)
    (w w1 : SingletonRegistry.World) (n : nat) (e : Exn) :
  SingletonRegistry.instances w !! key = None ->
  f w = (Throw e, w1) ->
  let s' := state_after (SingletonRegistry.getInstance key f) (w, n) in
  SingletonRegistry.getInstance key f (w, n) = (Throw e, s') /\
  s' = (w1, S n) /\
  SingletonRegistry.hasInstance key s'
  = (Ok (bool_decide (is_Some (SingletonRegistry.instances w1 !! key))), s') /\
  (SingletonRegistry.instances w1 = SingletonRegistry.instances w ->
   SingletonRegistry.hasInstance key s' = (Ok false, s') /\
   SingletonRegistry.instances (fst s') = SingletonRegistry.instances w).
Proof.
  intros Hk Hf s'.
  pose proof (getInstance_absent_throws key f w w1 n e Hk Hf) as Hget.
  assert (s' = (w1, S n)) as Hs' by (subst s'; unfold state_after; rewrite Hget; reflexivity).
  rewrite Hs'. split; [exact Hget|]. split; [reflexivity|]. split; [reflexivity|].
  intros Hsame. split; [|exact Hsame].
  unfold SingletonRegistry.hasInstance, SingletonRegistry.liftW,
    SingletonRegistry.Map_has, gets.
  rewrite Hsame, Hk.
  rewrite bool_decide_eq_false_2 by (intros [x Hx]; discriminate). reflexivity.
Qed.

Lemma registry_factory_throws_adds_no_entry_witness :
  let s0 := (SingletonRegistry.mkWorld {["Logger" := VRef 0]} [∅], 3) in
  let s' := state_after (SingletonRegistry.getInstance "Database"
                           (SingletonRegistry.failing "no connection")) s0 in
  SingletonRegistry.getInstance "Database" (SingletonRegistry.failing "no connection") s0
  = (Throw (Error "no connection"), s') /\
  s' = (SingletonRegistry.mkWorld {["Logger" := VRef 0]} [∅], 4) /\
  SingletonRegistry.hasInstance "Database" s' = (Ok false, s') /\
  SingletonRegistry.instances (fst s') = {["Logger" := VRef 0]}.
Proof.
  assert (SingletonRegistry.instances
            (SingletonRegistry.mkWorld {["Logger" := VRef 0]} [∅]) !! "Database" = None)
    as Habsent by (vm_compute; reflexivity).
  destruct (registry_factory_throws_adds_no_entry
              "Database" (SingletonRegistry.failing "no connection")
              (SingletonRegistry.mkWorld {["Logger" := VRef 0]} [∅])
              (SingletonRegistry.mkWorld {["Logger" := VRef 0]} [∅])
              3 (Error "no connection") Habsent eq_refl)
    as (Hget & Hs' & _ & Hpure).
  destruct (Hpure eq_refl) as [Hhas Hsame].
  repeat split; assumption.
Defined.

(** ** Singleton *)

Section SingletonFacts.

Import Singleton.

Lemma constructor_forbidden w :
  isCreating w = false -> constructor w = (Throw ConstructionForbidden, w).
Proof.
  intros Hflag. unfold constructor, bind, gets, throw. rewrite Hflag. reflexivity.
Qed.

Lemma constructor_returns_inv w l w' :
  constructor w = (Ok l, w') -> isCreating w = true.
Proof.
  unfold constructor, bind, gets, throw.
  destruct (isCreating w); [reflexivity | discriminate].
Qed.

Lemma getInstance_occupied w :
  truthy (instance w) = true -> getInstance w = (Ok (instance w), w).
Proof.
  intros Ht. unfold getInstance, bind, gets, ret. rewrite Ht. reflexivity.
Qed.

(** On an empty slot [getInstance] raises the flag, constructs, stores the
    new reference and lowers the flag again. *)
Lemma getInstance_empty w :
  truthy (instance w) = false ->
  getInstance w =
    (Ok (VRef (length (heap w))),
     mkWorld (VRef (length (heap w))) false
       (heap w ++ [mkObject "Singleton" "Creational"
                     "Ensures a class has only one instance and provides global access to it"])).
Proof.
  intros Ht. unfold getInstance, bind, gets, ret. rewrite Ht. reflexivity.
Qed.

Lemma perform_settled c w : settled w -> settled (perform c w).
Proof.
  intros [Hflag Hslot]. destruct c; unfold perform, state_after.
  - destruct (truthy (instance w)) eqn:Ht.
    + rewrite getInstance_occupied by exact Ht. split; assumption.
    + rewrite getInstance_empty by exact Ht. split; [reflexivity|].
      simpl. rewrite length_app. simpl. lia.
  - split; [exact Hflag | exact I].
  - rewrite constructor_forbidden by exact Hflag. split; assumption.
Qed.

Lemma performAll_settled cs : forall w, settled w -> settled (performAll cs w).
Proof.
  induction cs as [|c cs IH]; intros w Hw; simpl.
  - exact Hw.
  - apply IH. apply perform_settled. exact Hw.
Qed.

Lemma initial_settled : settled initial.
Proof. split; [reflexivity | exact I]. Qed.

(** In a settled world [getInstance()] returns a live reference. *)
Lemma getInstance_settled w :
  settled w ->
  exists l, fst (getInstance w) = Ok (VRef l) /\
            is_Some (heap (state_after getInstance w) !! l).
Proof.
  intros [Hflag Hslot]. unfold state_after.
  destruct (truthy (instance w)) eqn:Ht.
  - rewrite getInstance_occupied by exact Ht.
    destruct (instance w) as [| | | | |l]; try contradiction; try discriminate.
    exists l. split; [reflexivity|]. simpl. apply lookup_lt_is_Some. exact Hslot.
  - rewrite getInstance_empty by exact Ht.
    exists (length (heap w)). split; [reflexivity|]. simpl.
    apply lookup_lt_is_Some. rewrite length_app. simpl. lia.
Qed.

End SingletonFacts.

(** C3.  While [isCreating] is not set the constructor throws the
    "Cannot instantiate Singleton directly" error and changes nothing; a
    constructor call that returns was made with the flag set.  The flag is
    down in every world client code can reach with [getInstance()],
    [reset()] and attempted direct constructions, so a direct construction
    there throws, whereas [getInstance()] there returns an instance: the
    flag is up only inside [getInstance()]. *)
Theorem singleton_constructor_guarded :
  (forall w, Singleton.isCreating w = false ->
             Singleton.constructor w = (Throw Singleton.ConstructionForbidden, w)) /\
  (forall w l w', Singleton.constructor w = (Ok l, w') -> Singleton.isCreating w = true) /\
  (forall cs : list Singleton.Call,
     let w := Singleton.performAll cs Singleton.initial in
     Singleton.isCreating w = false /\
     Singleton.constructor w = (Throw Singleton.ConstructionForbidden, w) /\
     exists l, fst (Singleton.getInstance w) = Ok (VRef l) /\
               is_Some (Singleton.heap (state_after Singleton.getInstance w) !! l)).
Proof.
  split; [exact constructor_forbidden | split; [exact constructor_returns_inv |]].
  intros cs w.
  pose proof (performAll_settled cs _ initial_settled) as Hw. fold w in Hw.
  split; [exact (proj1 Hw) | split].
  - apply constructor_forbidden. exact (proj1 Hw).
  - apply getInstance_settled. exact Hw.
Qed.

Lemma singleton_constructor_guarded_witness :
  Singleton.constructor Singleton.initial
  = (Throw Singleton.ConstructionForbidden, Singleton.initial).
Proof.
  apply (proj1 singleton_constructor_guarded Singleton.initial). reflexivity.
Defined.

(** ** LazySingleton *)

Section LazySingletonFacts.

Import LazySingleton.

Lemma get_instance_occupied now w :
  truthy (_instance w) = true -> get_instance now w = (Ok (_instance w), w).
Proof.
  intros Ht. unfold get_instance, bind, gets, ret. rewrite Ht. reflexivity.
Qed.

Lemma get_instance_empty now w :
  truthy (_instance w) = false ->
  get_instance now w =
    (Ok (VRef (length (heap w))),
     mkWorld (VRef (length (heap w))) (heap w ++ [mkObject ("Created at " +:+ now)])).
Proof.
  intros Ht. unfold get_instance, bind, gets, ret. rewrite Ht. reflexivity.
Qed.

End LazySingletonFacts.

(** C9.  For [Singleton.getInstance()] and for the [LazySingleton.instance]
    accessor, in any world: a first call returns a value [v] and leaves it in
    the slot, and a second call made right after it returns the same [v]
    (the same reference) and leaves the whole world, heap included, as it was:
    nothing is constructed.  An occupied slot is returned as it is and never
    overwritten.  For LazySingleton this holds whatever the clock reads at
    the two accesses. *)
Theorem singleton_access_idempotent :
  (forall w : Singleton.World,
     exists v w1,
       Singleton.getInstance w = (Ok v, w1) /\
       Singleton.instance w1 = v /\ truthy v = true /\
       Singleton.getInstance w1 = (Ok v, w1)) /\
  (forall w : Singleton.World,
     truthy (Singleton.instance w) = true ->
     Singleton.getInstance w = (Ok (Singleton.instance w), w)) /\
  (forall (now1 now2 : string) (w : LazySingleton.World),
     exists v w1,
       LazySingleton.get_instance now1 w = (Ok v, w1) /\
       LazySingleton._instance w1 = v /\ truthy v = true /\
       LazySingleton.get_instance now2 w1 = (Ok v, w1)) /\
  (forall (now : string) (w : LazySingleton.World),
     truthy (LazySingleton._instance w) = true ->
     LazySingleton.get_instance now w = (Ok (LazySingleton._instance w), w)).
Proof.
  repeat split.
  - intros w. destruct (truthy (Singleton.instance w)) eqn:Ht.
    + exists (Singleton.instance w), w.
      rewrite getInstance_occupied by exact Ht. auto.
    + rewrite getInstance_empty by exact Ht.
      eexists _, _. split; [reflexivity|]. split; [reflexivity|]. split; [reflexivity|].
      apply getInstance_occupied. reflexivity.
  - exact getInstance_occupied.
  - intros now1 now2 w. destruct (truthy (LazySingleton._instance w)) eqn:Ht.
    + exists (LazySingleton._instance w), w.
      rewrite !get_instance_occupied by exact Ht. auto.
    + rewrite get_instance_empty by exact Ht.
      eexists _, _. split; [reflexivity|]. split; [reflexivity|]. split; [reflexivity|].
      apply get_instance_occupied. reflexivity.
  - intros now w. apply get_instance_occupied.
Qed.

Lemma singleton_access_idempotent_witness :
  Singleton.getInstance (Singleton.mkWorld (VRef 0) false [Singleton.mkObject "a" "b" "c"])
  = (Ok (VRef 0), Singleton.mkWorld (VRef 0) false [Singleton.mkObject "a" "b" "c"]).
Proof.
  apply (proj1 (proj2 singleton_access_idempotent)
           (Singleton.mkWorld (VRef 0) false [Singleton.mkObject "a" "b" "c"])).
  reflexivity.
Defined.

(** ** The builders *)

Lemma bind_returns {S A B} (m : M S A) (k : A -> M S B) s a s' :
  m s = (Ok a, s') -> bind m k s = k a s'.
Proof. intros Hm. unfold bind. rewrite Hm. reflexivity. Qed.

Lemma bind_throws {S A B} (m : M S A) (k : A -> M S B) s e s' :
  m s = (Throw e, s') -> bind m k s = (Throw e, s').
Proof. intros Hm. unfold bind. rewrite Hm. reflexivity. Qed.

Lemma str_truthy_false s : str_truthy s = false <-> s = "".
Proof. destruct s; simpl; split; intros H; congruence. Qed.

Lemma str_truthy_true s : str_truthy s = true <-> s <> "".
Proof. destruct s; simpl; split; intros H; congruence. Qed.

Section ConcreteFacts.

Import ConcreteComputerBuilder StagedBuilderSpec.

Lemma load_instance (h : Heap) this b :
  h !! this = Some (ObjConcrete b) -> load this h = (Ok b, h).
Proof. intros Hthis. unfold load. rewrite Hthis. reflexivity. Qed.

Lemma load_stranger (h : Heap) this :
  (forall b, h !! this <> Some (ObjConcrete b)) -> load this h = (Throw NotAnInstance, h).
Proof.
  intros Hthis. unfold load.
  destruct (h !! this) as [[c|b|b|b]|] eqn:E; try reflexivity.
  exfalso. exact (Hthis b eq_refl).
Qed.

(** Every call assigns to the fields of [this] and returns [this]. *)
Lemma perform_spec (h : Heap) this b c :
  h !! this = Some (ObjConcrete b) ->
  perform this c h = (Ok this, <[this := ObjConcrete (effect c b)]> h).
Proof.
  intros Hthis.
  destruct c as [[] v|]; simpl;
    unfold setCPU, setRAM, setStorage, setGPU, setPowerSupply, setMotherboard, reset;
    rewrite (bind_returns _ _ _ _ _ (load_instance h this b Hthis)); reflexivity.
Qed.

Lemma chain_spec cs : forall (h : Heap) this b,
  h !! this = Some (ObjConcrete b) ->
  chain this cs h = (Ok this, <[this := ObjConcrete (fields_after cs b)]> h).
Proof.
  induction cs as [|c cs IH]; intros h this b Hthis; simpl.
  - unfold ret. rewrite list_insert_id by exact Hthis. reflexivity.
  - rewrite (bind_returns _ _ _ _ _ (perform_spec h this b c Hthis)).
    rewrite (IH _ this (effect c b)).
    + rewrite list_insert_insert_eq. reflexivity.
    + apply list_lookup_insert_eq. eapply lookup_lt_Some. exact Hthis.
Qed.

Lemma build_spec (h : Heap) this b :
  h !! this = Some (ObjConcrete b) ->
  build this h =
    if negb (str_truthy (c_cpu b)) || negb (str_truthy (c_ram b)) || negb (str_truthy (c_storage b))
    then (Throw RequiredMissing, h)
    else (Ok (length h),
          h ++ [ObjComputer (Computer_init (c_cpu b) (c_ram b) (c_storage b)
                               (c_gpu b) (c_powerSupply b) (c_motherboard b))]).
Proof.
  intros Hthis. unfold build.
  rewrite (bind_returns _ _ _ _ _ (load_instance h this b Hthis)).
  destruct (negb (str_truthy (c_cpu b)) || negb (str_truthy (c_ram b))
            || negb (str_truthy (c_storage b))); reflexivity.
Qed.

Lemma build_after_spec cs (h : Heap) :
  build_after cs h =
    let b := fields_after cs fresh in
    if negb (str_truthy (c_cpu b)) || negb (str_truthy (c_ram b)) || negb (str_truthy (c_storage b))
    then (Throw RequiredMissing, h ++ [ObjConcrete b])
    else (Ok (S (length h)),
          h ++ [ObjConcrete b;
                ObjComputer (Computer_init (c_cpu b) (c_ram b) (c_storage b)
                               (c_gpu b) (c_powerSupply b) (c_motherboard b))]).
Proof.
  unfold build_after, new.
  rewrite (bind_returns _ _ h (length h) (h ++ [ObjConcrete fresh])) by reflexivity.
  rewrite (bind_returns _ _ _ _ _
             (chain_spec cs (h ++ [ObjConcrete fresh]) (length h) fresh
                (list_lookup_middle h [] _ _ eq_refl))).
  replace (<[length h := ObjConcrete (fields_after cs fresh)]> (h ++ [ObjConcrete fresh]))
    with (h ++ [ObjConcrete (fields_after cs fresh)])
    by (rewrite <- (Nat.add_0_r (length h)) at 1; rewrite insert_app_r; reflexivity).
  rewrite (build_spec _ (length h) (fields_after cs fresh))
    by (apply list_lookup_middle; reflexivity).
  cbv zeta.
  destruct (negb (str_truthy (c_cpu (fields_after cs fresh)))
            || negb (str_truthy (c_ram (fields_after cs fresh)))
            || negb (str_truthy (c_storage (fields_after cs fresh)))).
  - reflexivity.
  - rewrite length_app, <- app_assoc. simpl. rewrite Nat.add_1_r. reflexivity.
Qed.

Lemma fields_after_snoc cs c b :
  fields_after (cs ++ [c]) b = effect c (fields_after cs b).
Proof. unfold fields_after. rewrite foldl_app. reflexivity. Qed.

Lemma state_of_snoc cs c : state_of (cs ++ [c]) = apply (state_of cs) c.
Proof. unfold state_of. rewrite foldl_app. reflexivity. Qed.

Lemma never_reset_snoc cs c : never_reset (cs ++ [c]) = never_reset cs && is_set c.
Proof. unfold never_reset. rewrite forallb_app. simpl. rewrite andb_true_r. reflexivity. Qed.

(** The fields of a builder hold the state the specification gives it. *)
Lemma fields_hold cs :
  holds (fields_after cs fresh) (never_reset cs) (state_of cs).
Proof.
  induction cs as [|c cs IH] using rev_ind.
  - repeat split.
  - rewrite fields_after_snoc, state_of_snoc, never_reset_snoc.
    destruct IH as (Hc & Hr & Hs & Hg & Hp & Hm).
    destruct c as [[] v|]; simpl; rewrite ?andb_true_r, ?andb_false_r;
      repeat split; simpl; assumption || reflexivity.
Qed.

End ConcreteFacts.

(** C2, as stated, fails: whichever required field is missing, [build()]
    throws one and the same error, so no reading of the error can tell the
    first missing field.  A new builder (cpu is the first missing field) and
    one on which only [setCPU] was called (ram is) throw the same error. *)
Lemma build_error_does_not_name_field :
  ~ exists named, StagedBuilderSpec.build_names_first_missing named.
Proof.
  intros [named Hnamed].
  destruct (Hnamed [] ConcreteComputerBuilder.CPU eq_refl) as (e1 & h1 & Hb1 & Hn1).
  destruct (Hnamed [ConcreteComputerBuilder.CallSet ConcreteComputerBuilder.CPU "Intel i5-11400"]
              ConcreteComputerBuilder.RAM eq_refl) as (e2 & h2 & Hb2 & Hn2).
  vm_compute in Hb1, Hb2.
  injection Hb1 as <- _. injection Hb2 as <- _.
  rewrite Hn1 in Hn2. discriminate.
Qed.

(** C2, amended.  When a required field (cpu, ram or storage) of a
    ConcreteComputerBuilder is empty, [build()] throws
    [Error('CPU, RAM, and Storage are required')], the same error for each
    of the three fields, and leaves the heap as it was.  In particular this
    is what happens when the specification's state has a first missing
    required field. *)
Theorem build_missing_required_throws_one_error :
  (forall (h : Heap) (this : loc) (b : ConcreteFields),
     h !! this = Some (ObjConcrete b) ->
     c_cpu b = "" \/ c_ram b = "" \/ c_storage b = "" ->
     ConcreteComputerBuilder.build this h
     = (Throw (Error "CPU, RAM, and Storage are required"), h)) /\
  (forall cs f (h : Heap),
     StagedBuilderSpec.first_missing (StagedBuilderSpec.state_of cs) = Some f ->
     ConcreteComputerBuilder.build_after cs h
     = (Throw (Error "CPU, RAM, and Storage are required"),
        h ++ [ObjConcrete (ConcreteComputerBuilder.fields_after cs ConcreteComputerBuilder.fresh)])).
Proof.
  assert (forall b, c_cpu b = "" \/ c_ram b = "" \/ c_storage b = "" ->
            negb (str_truthy (c_cpu b)) || negb (str_truthy (c_ram b))
            || negb (str_truthy (c_storage b)) = true) as Hguard.
  { intros b [H | [H | H]]; rewrite H; simpl; rewrite ?orb_true_r; reflexivity. }
  split.
  - intros h this b Hthis Hmissing.
    rewrite (build_spec h this b Hthis), (Hguard b Hmissing). reflexivity.
  - intros cs f h Hfirst. rewrite build_after_spec. cbv zeta.
    rewrite Hguard; [reflexivity|].
    destruct (fields_hold cs) as (Hc & Hr & Hs & _).
    unfold StagedBuilderSpec.first_missing, StagedBuilderSpec.required in Hfirst.
    simpl in Hfirst. rewrite Hc, Hr, Hs.
    destruct (StagedBuilderSpec.state_of cs ConcreteComputerBuilder.CPU); [|left; reflexivity].
    destruct (StagedBuilderSpec.state_of cs ConcreteComputerBuilder.RAM);
      [|right; left; reflexivity].
    destruct (StagedBuilderSpec.state_of cs ConcreteComputerBuilder.Storage);
      [discriminate | right; right; reflexivity].
Qed.

Lemma build_missing_required_throws_one_error_witness :
  ConcreteComputerBuilder.build 0 [ObjConcrete (mkConcrete "Intel i5-11400" "16GB DDR4" "" None None None)]
  = (Throw (Error "CPU, RAM, and Storage are required"),
     [ObjConcrete (mkConcrete "Intel i5-11400" "16GB DDR4" "" None None None)]).
Proof.
  apply (proj1 build_missing_required_throws_one_error
           [ObjConcrete (mkConcrete "Intel i5-11400" "16GB DDR4" "" None None None)] 0
           (mkConcrete "Intel i5-11400" "16GB DDR4" "" None None None)).
  - reflexivity.
  - right. right. reflexivity.
Defined.

(** C4, as stated, fails: after [setCPU('')], [setRAM('16GB DDR4')] and
    [setStorage('512GB SSD')] every required field has been set, and
    [build()] throws. *)
Lemma build_rejects_required_set_to_empty :
  ~ StagedBuilderSpec.build_returns_fields_as_set.
Proof.
  intros Hclaim.
  destruct (Hclaim [ConcreteComputerBuilder.CallSet ConcreteComputerBuilder.CPU "";
                    ConcreteComputerBuilder.CallSet ConcreteComputerBuilder.RAM "16GB DDR4";
                    ConcreteComputerBuilder.CallSet ConcreteComputerBuilder.Storage "512GB SSD"]
              "" "16GB DDR4" "512GB SSD" eq_refl eq_refl eq_refl)
    as (p & h & product & Hbuild & _).
  vm_compute in Hbuild. discriminate.
Qed.

(** C4, amended.  When the three required fields have been set to strings
    other than [''], [new ConcreteComputerBuilder()...build()] returns a
    reference to a new Computer (an object that did not exist before, next
    to the builder) whose cpu, ram and storage are the values last passed
    to the setters, and so is every optional field that was set.  On a
    builder that was never reset the optional fields that were not set are
    absent from the Computer. *)
Theorem build_returns_nonempty_fields_as_set cs c r s (h : Heap) :
  StagedBuilderSpec.state_of cs ConcreteComputerBuilder.CPU = Some c ->
  StagedBuilderSpec.state_of cs ConcreteComputerBuilder.RAM = Some r ->
  StagedBuilderSpec.state_of cs ConcreteComputerBuilder.Storage = Some s ->
  c <> "" -> r <> "" -> s <> "" ->
  exists product,
    ConcreteComputerBuilder.build_after cs h
    = (Ok (S (length h)),
       h ++ [ObjConcrete (ConcreteComputerBuilder.fields_after cs ConcreteComputerBuilder.fresh);
             ObjComputer product]) /\
    cpu product = c /\ ram product = r /\ storage product = s /\
    (forall f v, StagedBuilderSpec.state_of cs f = Some v ->
                 StagedBuilderSpec.product_field product f = Some v) /\
    (StagedBuilderSpec.never_reset cs = true ->
     forall f, StagedBuilderSpec.product_field product f = StagedBuilderSpec.state_of cs f).
Proof.
  intros Hc Hr Hs Hcne Hrne Hsne.
  destruct (fields_hold cs) as (Fc & Fr & Fs & Fg & Fp & Fm).
  rewrite Hc in Fc. rewrite Hr in Fr. rewrite Hs in Fs. simpl in Fc, Fr, Fs.
  rewrite build_after_spec. cbv zeta. rewrite Fc, Fr, Fs.
  rewrite (proj2 (str_truthy_true c) Hcne), (proj2 (str_truthy_true r) Hrne),
    (proj2 (str_truthy_true s) Hsne). simpl.
  eexists. split; [reflexivity|]. simpl.
  split; [reflexivity|]. split; [reflexivity|]. split; [reflexivity|]. split.
  - intros f v Hf. destruct f; simpl; try congruence.
    + rewrite Fg, Hf. reflexivity.
    + rewrite Fp, Hf. reflexivity.
    + rewrite Fm, Hf. reflexivity.
  - intros Hnever f. rewrite Hnever in Fg, Fp, Fm.
    destruct f; simpl; try congruence.
    + rewrite Fg. destruct (StagedBuilderSpec.state_of cs ConcreteComputerBuilder.GPU); reflexivity.
    + rewrite Fp. destruct (StagedBuilderSpec.state_of cs ConcreteComputerBuilder.PowerSupply); reflexivity.
    + rewrite Fm. destruct (StagedBuilderSpec.state_of cs ConcreteComputerBuilder.Motherboard); reflexivity.
Qed.

Lemma build_returns_nonempty_fields_as_set_witness :
  exists product,
    ConcreteComputerBuilder.build_after
      [ConcreteComputerBuilder.CallSet ConcreteComputerBuilder.CPU "Intel i5-11400";
       ConcreteComputerBuilder.CallSet ConcreteComputerBuilder.GPU "RTX 3080";
       ConcreteComputerBuilder.CallSet ConcreteComputerBuilder.RAM "16GB DDR4";
       ConcreteComputerBuilder.CallSet ConcreteComputerBuilder.CPU "AMD EPYC 7742";
       ConcreteComputerBuilder.CallSet ConcreteComputerBuilder.Storage "512GB SSD"] []
    = (Ok 1, [ObjConcrete (mkConcrete "AMD EPYC 7742" "16GB DDR4" "512GB SSD"
                             (Some "RTX 3080") None None);
              ObjComputer product]) /\
    cpu product = "AMD EPYC 7742" /\ ram product = "16GB DDR4" /\
    storage product = "512GB SSD" /\
    gpu product = Some "RTX 3080" /\ powerSupply product = None /\ motherboard product = None.
Proof.
  destruct (build_returns_nonempty_fields_as_set
              [ConcreteComputerBuilder.CallSet ConcreteComputerBuilder.CPU "Intel i5-11400";
               ConcreteComputerBuilder.CallSet ConcreteComputerBuilder.GPU "RTX 3080";
               ConcreteComputerBuilder.CallSet ConcreteComputerBuilder.RAM "16GB DDR4";
               ConcreteComputerBuilder.CallSet ConcreteComputerBuilder.CPU "AMD EPYC 7742";
               ConcreteComputerBuilder.CallSet ConcreteComputerBuilder.Storage "512GB SSD"]
              "AMD EPYC 7742" "16GB DDR4" "512GB SSD" [])
    as (product & Hbuild & Hc & Hr & Hs & _ & Hall);
    [reflexivity | reflexivity | reflexivity | discriminate | discriminate | discriminate |].
  exists product. split; [exact Hbuild|].
  split; [exact Hc|]. split; [exact Hr|]. split; [exact Hs|].
  split; [exact (Hall eq_refl ConcreteComputerBuilder.GPU)|].
  split; [exact (Hall eq_refl ConcreteComputerBuilder.PowerSupply)|].
  exact (Hall eq_refl ConcreteComputerBuilder.Motherboard).
Defined.

Section DirectorFacts.

Import ConcreteComputerBuilder ComputerDirector.

Ltac live :=
  first [ eassumption
        | apply list_lookup_insert_eq; rewrite ?length_insert;
          eapply lookup_lt_Some; eassumption ].

Ltac call c :=
  erewrite bind_returns; [| eapply (perform_spec _ _ _ c); live].

(** The gaming recipe overwrites all six fields of the builder, whatever
    they were, and adds one Computer to the heap. *)
Lemma buildGamingComputer_spec (d : Object) (h : Heap) (b : ConcreteFields) :
  h !! builder d = Some (ObjConcrete b) ->
  buildGamingComputer d h =
    (Ok (length h),
     <[builder d := ObjConcrete (mkConcrete "Intel i9-11900K" "32GB DDR4" "1TB NVMe SSD"
                                   (Some "RTX 3080") (Some "850W Gold")
                                   (Some "ASUS ROG Strix Z590-E"))]> h
     ++ [ObjComputer (Computer_init "Intel i9-11900K" "32GB DDR4" "1TB NVMe SSD"
                        (Some "RTX 3080") (Some "850W Gold")
                        (Some "ASUS ROG Strix Z590-E"))]).
Proof.
  intros Hthis. unfold buildGamingComputer.
  call CallReset.
  call (CallSet CPU "Intel i9-11900K").
  call (CallSet RAM "32GB DDR4").
  call (CallSet Storage "1TB NVMe SSD").
  call (CallSet GPU "RTX 3080").
  call (CallSet PowerSupply "850W Gold").
  call (CallSet Motherboard "ASUS ROG Strix Z590-E").
  erewrite build_spec by live.
  rewrite !list_insert_insert_eq. simpl. rewrite length_insert. reflexivity.
Qed.

End DirectorFacts.

(** C5.  Two runs of [buildGamingComputer()] on the same builder return
    references to two objects, each new when it is returned and the two
    different from each other, that hold equal Computers with cpu
    "Intel i9-11900K", ram "32GB DDR4", storage "1TB NVMe SSD" and gpu
    "RTX 3080". *)
Theorem director_gaming_twice_equal_but_distinct
    (d : ComputerDirector.Object) (h : Heap) (b : ConcreteFields) :
  h !! ComputerDirector.builder d = Some (ObjConcrete b) ->
  exists p1 h1 p2 h2 c1 c2,
    ComputerDirector.buildGamingComputer d h = (Ok p1, h1) /\
    ComputerDirector.buildGamingComputer d h1 = (Ok p2, h2) /\
    h !! p1 = None /\ h1 !! p2 = None /\
    p1 <> p2 /\
    h2 !! p1 = Some (ObjComputer c1) /\
    h2 !! p2 = Some (ObjComputer c2) /\
    c1 = c2 /\
    cpu c1 = "Intel i9-11900K" /\ ram c1 = "32GB DDR4" /\
    storage c1 = "1TB NVMe SSD" /\ gpu c1 = Some "RTX 3080".
Proof.
  intros Hthis.
  pose proof (lookup_lt_Some _ _ _ Hthis) as Hlt.
  set (gaming := mkConcrete "Intel i9-11900K" "32GB DDR4" "1TB NVMe SSD"
                   (Some "RTX 3080") (Some "850W Gold") (Some "ASUS ROG Strix Z590-E")).
  set (product := Computer_init "Intel i9-11900K" "32GB DDR4" "1TB NVMe SSD"
                    (Some "RTX 3080") (Some "850W Gold") (Some "ASUS ROG Strix Z590-E")).
  set (h0 := <[ComputerDirector.builder d := ObjConcrete gaming]> h).
  assert (length h0 = length h) as Hlen by apply length_insert.
  assert ((h0 ++ [ObjComputer product]) !! ComputerDirector.builder d
          = Some (ObjConcrete gaming)) as Hthis1.
  { rewrite lookup_app_l by lia. apply list_lookup_insert_eq. exact Hlt. }
  exists (length h), (h0 ++ [ObjComputer product]),
         (S (length h)), ((h0 ++ [ObjComputer product]) ++ [ObjComputer product]),
         product, product.
  split; [exact (buildGamingComputer_spec d h b Hthis)|].
  split.
  { rewrite (buildGamingComputer_spec d _ gaming Hthis1).
    fold gaming product. rewrite (list_insert_id _ _ _ Hthis1).
    rewrite length_app, Hlen. simpl. rewrite Nat.add_1_r. reflexivity. }
  split; [apply lookup_ge_None; lia|].
  split; [apply lookup_ge_None; rewrite length_app, Hlen; simpl; lia|].
  split; [lia|].
  split.
  { rewrite lookup_app_l by (rewrite length_app, Hlen; simpl; lia).
    rewrite <- Hlen. apply list_lookup_middle. reflexivity. }
  split.
  { replace (S (length h)) with (length (h0 ++ [ObjComputer product]))
      by (rewrite length_app, Hlen; simpl; lia).
    apply list_lookup_middle. reflexivity. }
  repeat split.
Qed.

Lemma director_gaming_twice_equal_but_distinct_witness :
  exists p1 h1 p2 h2 c1 c2,
    ComputerDirector.buildGamingComputer (ComputerDirector.mkDirector 0)
      [ObjConcrete ConcreteComputerBuilder.fresh] = (Ok p1, h1) /\
    ComputerDirector.buildGamingComputer (ComputerDirector.mkDirector 0) h1 = (Ok p2, h2) /\
    [ObjConcrete ConcreteComputerBuilder.fresh] !! p1 = None /\ h1 !! p2 = None /\
    p1 <> p2 /\
    h2 !! p1 = Some (ObjComputer c1) /\
    h2 !! p2 = Some (ObjComputer c2) /\
    c1 = c2 /\
    cpu c1 = "Intel i9-11900K" /\ ram c1 = "32GB DDR4" /\
    storage c1 = "1TB NVMe SSD" /\ gpu c1 = Some "RTX 3080".
Proof.
  apply (director_gaming_twice_equal_but_distinct (ComputerDirector.mkDirector 0)
           [ObjConcrete ConcreteComputerBuilder.fresh] ConcreteComputerBuilder.fresh).
  reflexivity.
Defined.

(** C7: the code at
    [new ConcreteComputerBuilder().reset().setCPU(..).setRAM(..).setStorage(..).build()].
    [reset()] returns the builder it was called on, but it leaves [''] in
    the three optional fields, which a new builder has [undefined]; the
    Computer built after the reset carries these [''] where the Computer
    built by the same calls on a new builder has no value. *)
Theorem reset_leaves_placeholders_in_optional_fields :
  let setters :=
    [ConcreteComputerBuilder.CallSet ConcreteComputerBuilder.CPU "Intel i5-11400";
     ConcreteComputerBuilder.CallSet ConcreteComputerBuilder.RAM "16GB DDR4";
     ConcreteComputerBuilder.CallSet ConcreteComputerBuilder.Storage "512GB SSD"] in
  ConcreteComputerBuilder.reset 0 [ObjConcrete ConcreteComputerBuilder.fresh]
  = (Ok 0, [ObjConcrete (mkConcrete "" "" "" (Some "") (Some "") (Some ""))]) /\
  mkConcrete "" "" "" (Some "") (Some "") (Some "") <> ConcreteComputerBuilder.fresh /\
  (exists product,
     ConcreteComputerBuilder.build_after setters []
     = (Ok 1, [ObjConcrete (mkConcrete "Intel i5-11400" "16GB DDR4" "512GB SSD" None None None);
               ObjComputer product]) /\
     gpu product = None /\ powerSupply product = None /\ motherboard product = None) /\
  (exists product,
     ConcreteComputerBuilder.build_after (ConcreteComputerBuilder.CallReset :: setters) []
     = (Ok 1, [ObjConcrete (mkConcrete "Intel i5-11400" "16GB DDR4" "512GB SSD"
                              (Some "") (Some "") (Some ""));
               ObjComputer product]) /\
     gpu product = Some "" /\ powerSupply product = Some "" /\ motherboard product = Some "").
Proof.
  cbv zeta. split; [reflexivity|]. split; [discriminate|].
  split; eexists; (split; [vm_compute; reflexivity | repeat split]).
Qed.

Section BuildFrame.

Lemma concrete_build_frame this h :
  throws_or_appends (ConcreteComputerBuilder.build this) h.
Proof.
  unfold throws_or_appends, ConcreteComputerBuilder.build, ConcreteComputerBuilder.load,
    bind, throw, alloc.
  destruct (h !! this) as [[c|b|b|b]|]; try (left; eexists; reflexivity).
  destruct (negb (str_truthy (c_cpu b)) || negb (str_truthy (c_ram b))
            || negb (str_truthy (c_storage b)));
    [left | right]; eexists; reflexivity.
Qed.

Lemma fluent_build_frame this h :
  throws_or_appends (FluentComputerBuilder.build this) h.
Proof.
  unfold throws_or_appends, FluentComputerBuilder.build, FluentComputerBuilder.load,
    bind, throw, alloc.
  destruct (h !! this) as [[c|b|b|b]|]; try (left; eexists; reflexivity).
  destruct (negb (opt_truthy (f_cpu b)) || negb (opt_truthy (f_ram b))
            || negb (opt_truthy (f_storage b)));
    [left | right]; eexists; reflexivity.
Qed.

Lemma step_build_frame this h :
  throws_or_appends (StepComputerBuilder.build this) h.
Proof.
  unfold throws_or_appends, StepComputerBuilder.build, StepComputerBuilder.load,
    bind, throw, alloc.
  destruct (h !! this) as [[c|b|b|b]|]; try (left; eexists; reflexivity).
  destruct (negb (str_truthy (cpuValue b)) || negb (str_truthy (ramValue b))
            || negb (str_truthy (storageValue b)));
    [left | right]; eexists; reflexivity.
Qed.

Lemma throws_or_appends_keeps m (h : Heap) l o :
  throws_or_appends m h -> h !! l = Some o -> state_after m h !! l = Some o.
Proof.
  intros [[e Hm] | [c Hm]] Hl; unfold state_after; rewrite Hm; simpl.
  - exact Hl.
  - rewrite lookup_app_l by (eapply lookup_lt_Some; exact Hl). exact Hl.
Qed.

Lemma throws_or_appends_throw m (h : Heap) e :
  throws_or_appends m h -> fst (m h) = Throw e -> state_after m h = h.
Proof.
  intros [[e' Hm] | [c Hm]]; unfold state_after; rewrite Hm; simpl.
  - reflexivity.
  - discriminate.
Qed.

End BuildFrame.

(** C8, as stated, fails on GenericBuilder: its [build()] calls [reset()]
    before it returns.  On the one-field subclass holding "draft",
    [build()] returns "draft" and leaves [''] in the field. *)
Lemma generic_build_resets_the_builder :
  ~ GenericBuilder.build_leaves_state.
Proof.
  intros Hclaim.
  specialize (Hclaim string string GenericBuilder.TextBuilder "draft").
  vm_compute in Hclaim. discriminate.
Qed.

(** C8, amended.  [build()] of ConcreteComputerBuilder, of
    FluentComputerBuilder and of StepComputerBuilder leaves every object
    that was in the heap, the builder itself among them, exactly as it
    was, when it returns and when it throws; when it throws the heap as a
    whole is unchanged.  [GenericBuilder.build()] is different: after a
    [buildImplementation()] that returned it runs the subclass's
    [reset()], and the builder is left as [reset()] leaves it. *)
Theorem computer_builders_build_leaves_state (h : Heap) (this l : loc) (o : Obj) :
  h !! l = Some o ->
  (state_after (ConcreteComputerBuilder.build this) h !! l = Some o /\
   state_after (FluentComputerBuilder.build this) h !! l = Some o /\
   state_after (StepComputerBuilder.build this) h !! l = Some o) /\
  (forall e,
     (fst (ConcreteComputerBuilder.build this h) = Throw e ->
      state_after (ConcreteComputerBuilder.build this) h = h) /\
     (fst (FluentComputerBuilder.build this h) = Throw e ->
      state_after (FluentComputerBuilder.build this) h = h) /\
     (fst (StepComputerBuilder.build this h) = Throw e ->
      state_after (StepComputerBuilder.build this) h = h)) /\
  (forall (S T : Type) (sub : GenericBuilder.Subclass S T) (s s1 : S) (r : T),
     GenericBuilder.buildImplementation s = (Ok r, s1) ->
     state_after GenericBuilder.build s = state_after GenericBuilder.reset s1).
Proof.
  intros Hl. split; [|split].
  - repeat split; apply throws_or_appends_keeps;
      auto using concrete_build_frame, fluent_build_frame, step_build_frame.
  - intros e. repeat split; apply throws_or_appends_throw;
      auto using concrete_build_frame, fluent_build_frame, step_build_frame.
  - intros S T sub s s1 r Himpl.
    unfold state_after, GenericBuilder.build, bind. rewrite Himpl.
    destruct (GenericBuilder.reset s1) as [[u|e] s2]; reflexivity.
Qed.

Lemma computer_builders_build_leaves_state_witness :
  let b := mkConcrete "Intel i5-11400" "16GB DDR4" "512GB SSD" (Some "RTX 3080") None None in
  state_after (ConcreteComputerBuilder.build 0) [ObjConcrete b] !! 0 = Some (ObjConcrete b).
Proof.
  apply (proj1 (proj1 (computer_builders_build_leaves_state
           [ObjConcrete (mkConcrete "Intel i5-11400" "16GB DDR4" "512GB SSD"
                           (Some "RTX 3080") None None)]
           0 0
           (ObjConcrete (mkConcrete "Intel i5-11400" "16GB DDR4" "512GB SSD"
                           (Some "RTX 3080") None None))
           eq_refl))).
Defined.

Section EmptyStringFacts.

(** A setter followed by [build()] on the reference the setter returned. *)
Ltac set_then_build Hthis :=
  unfold bind, modify, ret, gets, throw; simpl;
  rewrite Hthis; simpl;
  rewrite list_lookup_insert_eq by (eapply lookup_lt_Some; exact Hthis);
  simpl; rewrite ?orb_true_r; reflexivity.

Lemma concrete_empty_required (h : Heap) this b :
  h !! this = Some (ObjConcrete b) ->
  fst ((let* x := ConcreteComputerBuilder.setCPU this "" in
        ConcreteComputerBuilder.build x) h) = Throw RequiredMissing /\
  fst ((let* x := ConcreteComputerBuilder.setRAM this "" in
        ConcreteComputerBuilder.build x) h) = Throw RequiredMissing /\
  fst ((let* x := ConcreteComputerBuilder.setStorage this "" in
        ConcreteComputerBuilder.build x) h) = Throw RequiredMissing.
Proof.
  intros Hthis.
  unfold ConcreteComputerBuilder.setCPU, ConcreteComputerBuilder.setRAM,
    ConcreteComputerBuilder.setStorage, ConcreteComputerBuilder.build,
    ConcreteComputerBuilder.load, ConcreteComputerBuilder.store.
  repeat split; set_then_build Hthis.
Qed.

Lemma fluent_empty_required (h : Heap) this b :
  h !! this = Some (ObjFluent b) ->
  fst ((let* x := FluentComputerBuilder.cpu this "" in
        FluentComputerBuilder.build x) h) = Throw RequiredMissing /\
  fst ((let* x := FluentComputerBuilder.ram this "" in
        FluentComputerBuilder.build x) h) = Throw RequiredMissing /\
  fst ((let* x := FluentComputerBuilder.storage this "" in
        FluentComputerBuilder.build x) h) = Throw RequiredMissing.
Proof.
  intros Hthis.
  unfold FluentComputerBuilder.cpu, FluentComputerBuilder.ram,
    FluentComputerBuilder.storage, FluentComputerBuilder.build,
    FluentComputerBuilder.load, FluentComputerBuilder.store.
  repeat split; set_then_build Hthis.
Qed.

Lemma step_empty_required (h : Heap) this b :
  h !! this = Some (ObjStep b) ->
  fst ((let* x := StepComputerBuilder.cpu this "" in
        StepComputerBuilder.build x) h) = Throw RequiredMissing /\
  fst ((let* x := StepComputerBuilder.ram this "" in
        StepComputerBuilder.build x) h) = Throw RequiredMissing /\
  fst ((let* x := StepComputerBuilder.storage this "" in
        StepComputerBuilder.build x) h) = Throw RequiredMissing.
Proof.
  intros Hthis.
  unfold StepComputerBuilder.cpu, StepComputerBuilder.ram,
    StepComputerBuilder.storage, StepComputerBuilder.build,
    StepComputerBuilder.load, StepComputerBuilder.store.
  repeat split; set_then_build Hthis.
Qed.

End EmptyStringFacts.

(** C10.  In each of ConcreteComputerBuilder, FluentComputerBuilder and
    StepComputerBuilder, whatever the other fields of the builder hold,
    [build()] called right after the cpu, the ram or the storage setter was
    given [''] throws [Error('CPU, RAM, and Storage are required')]: the
    guard tests the truthiness of the field, and [''] is falsy. *)
Theorem empty_string_counts_as_unset
    (h : Heap) (concrete fluent step : loc)
    (bc : ConcreteFields) (bf : FluentFields) (bs : StepFields) :
  h !! concrete = Some (ObjConcrete bc) ->
  h !! fluent = Some (ObjFluent bf) ->
  h !! step = Some (ObjStep bs) ->
  let required := Throw (Error "CPU, RAM, and Storage are required") in
  (fst ((let* x := ConcreteComputerBuilder.setCPU concrete "" in
         ConcreteComputerBuilder.build x) h) = required /\
   fst ((let* x := ConcreteComputerBuilder.setRAM concrete "" in
         ConcreteComputerBuilder.build x) h) = required /\
   fst ((let* x := ConcreteComputerBuilder.setStorage concrete "" in
         ConcreteComputerBuilder.build x) h) = required) /\
  (fst ((let* x := FluentComputerBuilder.cpu fluent "" in
         FluentComputerBuilder.build x) h) = required /\
   fst ((let* x := FluentComputerBuilder.ram fluent "" in
         FluentComputerBuilder.build x) h) = required /\
   fst ((let* x := FluentComputerBuilder.storage fluent "" in
         FluentComputerBuilder.build x) h) = required) /\
  (fst ((let* x := StepComputerBuilder.cpu step "" in
         StepComputerBuilder.build x) h) = required /\
   fst ((let* x := StepComputerBuilder.ram step "" in
         StepComputerBuilder.build x) h) = required /\
   fst ((let* x := StepComputerBuilder.storage step "" in
         StepComputerBuilder.build x) h) = required).
Proof.
  intros Hc Hf Hs required. split; [|split].
  - exact (concrete_empty_required h concrete bc Hc).
  - exact (fluent_empty_required h fluent bf Hf).
  - exact (step_empty_required h step bs Hs).
Qed.

Lemma empty_string_counts_as_unset_witness :
  let h := [ObjConcrete (mkConcrete "Intel i5-11400" "16GB DDR4" "512GB SSD" None None None);
            ObjFluent (mkFluent (Some "Intel i5-11400") (Some "16GB DDR4") (Some "512GB SSD")
                         None None None);
            ObjStep (mkStep "Intel i5-11400" "16GB DDR4" "512GB SSD" None None None)] in
  fst ((let* x := ConcreteComputerBuilder.setCPU 0 "" in
        ConcreteComputerBuilder.build x) h)
  = Throw (Error "CPU, RAM, and Storage are required") /\
  fst ((let* x := FluentComputerBuilder.ram 1 "" in
        FluentComputerBuilder.build x) h)
  = Throw (Error "CPU, RAM, and Storage are required") /\
  fst ((let* x := StepComputerBuilder.storage 2 "" in
        StepComputerBuilder.build x) h)
  = Throw (Error "CPU, RAM, and Storage are required").
Proof.
  intros h.
  destruct (empty_string_counts_as_unset h 0 1 2
              (mkConcrete "Intel i5-11400" "16GB DDR4" "512GB SSD" None None None)
              (mkFluent (Some "Intel i5-11400") (Some "16GB DDR4") (Some "512GB SSD")
                 None None None)
              (mkStep "Intel i5-11400" "16GB DDR4" "512GB SSD" None None None)
              eq_refl eq_refl eq_refl)
    as ((Hc & _ & _) & (_ & Hf & _) & (_ & _ & Hs)).
  split; [exact Hc | split; [exact Hf | exact Hs]].
Defined.

(** * Further properties of the code *)

(** ** SingletonRegistry: reset, resetAll, hasInstance *)

Section RegistryResetFacts.

Import SingletonRegistry.

Lemma with_instances_id (w : World) (m : gmap string Value) :
  m = instances w -> mkWorld m (heap w) = w.
Proof. intros ->. destruct w; reflexivity. Qed.

Lemma hasInstance_absent key w n :
  instances w !! key = None -> hasInstance key (w, n) = (Ok false, (w, n)).
Proof.
  intros Hk. unfold hasInstance, liftW, Map_has, gets. rewrite Hk.
  rewrite bool_decide_eq_false_2 by (intros [x Hx]; discriminate). reflexivity.
Qed.

End RegistryResetFacts.

(** X1.  [reset(key)] never fails and removes the entry of [key] and
    nothing else: afterwards [hasInstance(key)] is false, every other key
    has the entry it had, the objects and the invocation counter are
    untouched; when [key] had no entry the whole state is unchanged. *)
Theorem registry_reset_removes_only_key (key : string) (s : SingletonRegistry.Instrumented) :
  let s' := state_after (SingletonRegistry.reset key) s in
  SingletonRegistry.reset key s = (Ok tt, s') /\
  SingletonRegistry.hasInstance key s' = (Ok false, s') /\
  (forall k, k <> key ->
     SingletonRegistry.instances (fst s') !! k = SingletonRegistry.instances (fst s) !! k) /\
  SingletonRegistry.heap (fst s') = SingletonRegistry.heap (fst s) /\
  snd s' = snd s /\
  (SingletonRegistry.instances (fst s) !! key = None -> s' = s).
Proof.
  destruct s as [w n]. cbv zeta.
  unfold state_after, SingletonRegistry.reset, SingletonRegistry.liftW,
    SingletonRegistry.Map_delete, modify. cbn [fst snd].
  split; [reflexivity|]. split.
  - apply hasInstance_absent. simpl. apply lookup_delete_eq.
  - split; [|split; [reflexivity | split; [reflexivity|]]].
    + intros k Hne. apply lookup_delete_ne. congruence.
    + intros Habs. f_equal. unfold SingletonRegistry.with_instances.
      apply with_instances_id. apply delete_id. exact Habs.
Qed.

(** X2.  [resetAll()] never fails, keeps the objects and forgets every
    key: afterwards [hasInstance] is false for every key, and a
    [getInstance] for any key invokes its factory again and stores what it
    returns. *)
Theorem registry_resetAll_forgets_every_key (s : SingletonRegistry.Instrumented) :
  let s' := state_after SingletonRegistry.resetAll s in
  SingletonRegistry.resetAll s = (Ok tt, s') /\
  SingletonRegistry.heap (fst s') = SingletonRegistry.heap (fst s) /\
  (forall k, SingletonRegistry.hasInstance k s' = (Ok false, s')) /\
  (forall k (f : SingletonRegistry.Factory) v w1,
     f (fst s') = (Ok v, w1) ->
     SingletonRegistry.getInstance k f s'
     = (Ok v, (SingletonRegistry.with_instances (insert k v) w1, S (snd s)))).
Proof.
  destruct s as [w n]. cbv zeta.
  unfold state_after, SingletonRegistry.resetAll, SingletonRegistry.liftW,
    SingletonRegistry.Map_clear, modify. cbn [fst snd].
  split; [reflexivity|]. split; [reflexivity|]. split.
  - intros k. apply hasInstance_absent. simpl. apply lookup_empty.
  - intros k f v w1 Hf. apply getInstance_absent_returns; [apply lookup_empty | exact Hf].
Qed.

Lemma registry_resetAll_forgets_every_key_witness :
  SingletonRegistry.getInstance "TestSingleton" SingletonRegistry.newTestSingleton
    (state_after SingletonRegistry.resetAll
       (SingletonRegistry.mkWorld {["TestSingleton" := VRef 0]} [{["value" := VStr "modified"]}], 1))
  = (Ok (VRef 1),
     (SingletonRegistry.mkWorld {["TestSingleton" := VRef 1]}
        [{["value" := VStr "modified"]}; {["value" := VStr "test"]}], 2)).
Proof.
  apply (proj2 (proj2 (proj2 (registry_resetAll_forgets_every_key
           (SingletonRegistry.mkWorld {["TestSingleton" := VRef 0]}
              [{["value" := VStr "modified"]}], 1))))
           "TestSingleton" SingletonRegistry.newTestSingleton (VRef 1)
           (SingletonRegistry.mkWorld ∅
              [{["value" := VStr "modified"]}; {["value" := VStr "test"]}])).
  reflexivity.
Defined.

(** X3.  After [reset(key)] the next [getInstance(key, g)] constructs anew.
    With factories that create an object ([() => new C()]): the first call
    returns a new reference, and after [reset(key)] the second call returns
    another, different reference, the factories having been invoked twice
    in all; the object the first call created is still in the heap. *)
Theorem registry_reset_then_getInstance_constructs_anew
    (key : string) (f g : SingletonRegistry.Factory)
    (w : SingletonRegistry.World) (n : nat) :
  SingletonRegistry.constructs f ->
  SingletonRegistry.constructs g ->
  SingletonRegistry.instances w !! key = None ->
  exists o1 o2 s1 s3,
    SingletonRegistry.getInstance key f (w, n)
    = (Ok (VRef (length (SingletonRegistry.heap w))), s1) /\
    SingletonRegistry.getInstance key g (state_after (SingletonRegistry.reset key) s1)
    = (Ok (VRef (S (length (SingletonRegistry.heap w)))), s3) /\
    snd s3 = S (S n) /\
    SingletonRegistry.heap (fst s3) = SingletonRegistry.heap w ++ [o1; o2] /\
    SingletonRegistry.instances (fst s3) !! key
    = Some (VRef (S (length (SingletonRegistry.heap w)))).
Proof.
  intros Hf Hg Hk.
  destruct (Hf w) as [o1 Ho1].
  set (w1 := SingletonRegistry.mkWorld (SingletonRegistry.instances w)
               (SingletonRegistry.heap w ++ [o1])) in *.
  set (w2 := SingletonRegistry.with_instances (delete key)
               (SingletonRegistry.with_instances
                  (insert key (VRef (length (SingletonRegistry.heap w)))) w1)).
  destruct (Hg w2) as [o2 Ho2].
  assert (length (SingletonRegistry.heap w2) = S (length (SingletonRegistry.heap w))) as Hlen.
  { subst w2 w1. simpl. rewrite length_app. simpl. lia. }
  rewrite Hlen in Ho2.
  exists o1, o2. eexists. eexists.
  split; [exact (getInstance_absent_returns key f w w1 n _ Hk Ho1)|].
  unfold state_after, SingletonRegistry.reset, SingletonRegistry.liftW,
    SingletonRegistry.Map_delete, modify. cbn [fst snd]. fold w2.
  split.
  { eapply getInstance_absent_returns; [|exact Ho2].
    subst w2. simpl. apply lookup_delete_eq. }
  split; [reflexivity|]. split.
  - simpl. subst w2 w1. simpl. rewrite <- app_assoc. reflexivity.
  - simpl. apply lookup_insert_eq.
Qed.

Lemma newTestSingleton_constructs :
  SingletonRegistry.constructs SingletonRegistry.newTestSingleton.
Proof. intros w. eexists. reflexivity. Qed.

Lemma registry_reset_then_getInstance_constructs_anew_witness :
  exists o1 o2 s1 s3,
    SingletonRegistry.getInstance "TestSingleton" SingletonRegistry.newTestSingleton
      (SingletonRegistry.empty, 0) = (Ok (VRef 0), s1) /\
    SingletonRegistry.getInstance "TestSingleton" SingletonRegistry.newTestSingleton
      (state_after (SingletonRegistry.reset "TestSingleton") s1) = (Ok (VRef 1), s3) /\
    snd s3 = 2 /\
    SingletonRegistry.heap (fst s3) = [] ++ [o1; o2] /\
    SingletonRegistry.instances (fst s3) !! "TestSingleton" = Some (VRef 1).
Proof.
  apply (registry_reset_then_getInstance_constructs_anew "TestSingleton"
           SingletonRegistry.newTestSingleton SingletonRegistry.newTestSingleton
           SingletonRegistry.empty 0
           newTestSingleton_constructs newTestSingleton_constructs).
  reflexivity.
Defined.

(** X4.  Keys are isolated.  For two different absent keys and factories
    that create an object, the two [getInstance] calls return different
    references, each stored under its own key; from then on each key keeps
    returning its own reference, whatever factory is supplied. *)
Theorem registry_keys_isolated
    (k1 k2 : string) (f1 f2 : SingletonRegistry.Factory)
    (w : SingletonRegistry.World) (n : nat) :
  SingletonRegistry.constructs f1 ->
  SingletonRegistry.constructs f2 ->
  k1 <> k2 ->
  SingletonRegistry.instances w !! k1 = None ->
  SingletonRegistry.instances w !! k2 = None ->
  exists v1 v2 s1 s2,
    SingletonRegistry.getInstance k1 f1 (w, n) = (Ok v1, s1) /\
    SingletonRegistry.getInstance k2 f2 s1 = (Ok v2, s2) /\
    v1 <> v2 /\
    (forall g, SingletonRegistry.getInstance k1 g s2 = (Ok v1, s2)) /\
    (forall g, SingletonRegistry.getInstance k2 g s2 = (Ok v2, s2)).
Proof.
  intros Hf1 Hf2 Hne Hk1 Hk2.
  destruct (Hf1 w) as [o1 Ho1].
  set (w1 := SingletonRegistry.with_instances
               (insert k1 (VRef (length (SingletonRegistry.heap w))))
               (SingletonRegistry.mkWorld (SingletonRegistry.instances w)
                  (SingletonRegistry.heap w ++ [o1]))).
  destruct (Hf2 w1) as [o2 Ho2].
  assert (SingletonRegistry.instances w1 !! k2 = None) as Hk2'.
  { subst w1. simpl. rewrite lookup_insert_ne by exact Hne. exact Hk2. }
  eexists _, _, _, _.
  split; [eapply getInstance_absent_returns; [exact Hk1 | exact Ho1]|].
  split; [eapply getInstance_absent_returns; [exact Hk2' | exact Ho2]|].
  split.
  { subst w1. simpl. rewrite length_app. simpl. intros [= Heq]. lia. }
  split; intros g; apply getInstance_present; simpl.
  - rewrite lookup_insert_ne by congruence. subst w1. simpl. apply lookup_insert_eq.
  - apply lookup_insert_eq.
Qed.

Lemma registry_keys_isolated_witness :
  exists v1 v2 s1 s2,
    SingletonRegistry.getInstance "TestSingleton" SingletonRegistry.newTestSingleton
      (SingletonRegistry.empty, 0) = (Ok v1, s1) /\
    SingletonRegistry.getInstance "AnotherSingleton" SingletonRegistry.newTestSingleton s1
    = (Ok v2, s2) /\
    v1 <> v2 /\
    (forall g, SingletonRegistry.getInstance "TestSingleton" g s2 = (Ok v1, s2)) /\
    (forall g, SingletonRegistry.getInstance "AnotherSingleton" g s2 = (Ok v2, s2)).
Proof.
  apply (registry_keys_isolated "TestSingleton" "AnotherSingleton"
           SingletonRegistry.newTestSingleton SingletonRegistry.newTestSingleton
           SingletonRegistry.empty 0
           newTestSingleton_constructs newTestSingleton_constructs).
  - discriminate.
  - reflexivity.
  - reflexivity.
Defined.

(** ** Singleton and LazySingleton: reset, repeated access, getData *)

Section SingletonResetFacts.

Import Singleton.

Lemma reset_spec w : reset w = (Ok tt, mkWorld VNull (isCreating w) (heap w)).
Proof. reflexivity. Qed.

(** The empty-slot count used to bound the constructions. *)
Lemma perform_heap_bound c w :
  settled w ->
  length (heap (perform c w)) + (if truthy (instance (perform c w)) then 0 else 1)
  <= length (heap w) + (if truthy (instance w) then 0 else 1)
     + (if is_reset c then 1 else 0).
Proof.
  intros [Hflag Hslot]. destruct c; unfold perform, state_after.
  - destruct (truthy (instance w)) eqn:Ht.
    + rewrite getInstance_occupied by exact Ht. simpl. rewrite Ht. lia.
    + rewrite getInstance_empty by exact Ht. simpl. rewrite length_app. simpl. lia.
  - rewrite reset_spec. simpl. destruct (truthy (instance w)); lia.
  - rewrite constructor_forbidden by exact Hflag. simpl.
    destruct (truthy (instance w)); lia.
Qed.

Lemma performAll_heap_bound cs : forall w,
  settled w ->
  length (heap (performAll cs w)) + (if truthy (instance (performAll cs w)) then 0 else 1)
  <= length (heap w) + (if truthy (instance w) then 0 else 1)
     + length (List.filter is_reset cs).
Proof.
  induction cs as [|c cs IH]; intros w Hw.
  - simpl. lia.
  - change (performAll (c :: cs) w) with (performAll cs (perform c w)).
    pose proof (IH (perform c w) (perform_settled c w Hw)) as H1.
    pose proof (perform_heap_bound c w Hw) as H2.
    simpl List.filter. destruct (is_reset c); simpl length; lia.
Qed.

End SingletonResetFacts.

(** X5.  [Singleton.reset()] then [getInstance()] gives a new instance:
    between two calls of the class, [getInstance()] returns a reference,
    and after [reset()] the next [getInstance()] returns a different
    reference to a newly constructed object; the object first returned is
    still in the heap, unchanged. *)
Theorem singleton_reset_then_getInstance_is_new (w : Singleton.World) :
  Singleton.settled w ->
  exists l1 l2 w1 w3,
    Singleton.getInstance w = (Ok (VRef l1), w1) /\
    Singleton.getInstance (state_after Singleton.reset w1) = (Ok (VRef l2), w3) /\
    l1 <> l2 /\
    Singleton.heap w1 !! l2 = None /\
    is_Some (Singleton.heap w3 !! l2) /\
    is_Some (Singleton.heap w1 !! l1) /\
    Singleton.heap w3 !! l1 = Singleton.heap w1 !! l1.
Proof.
  intros [Hflag Hslot].
  assert (exists l1 w1, Singleton.getInstance w = (Ok (VRef l1), w1) /\
                        l1 < length (Singleton.heap w1)) as (l1 & w1 & Hget & Hlive).
  { destruct (truthy (Singleton.instance w)) eqn:Ht.
    - rewrite getInstance_occupied by exact Ht.
      destruct (Singleton.instance w) as [| | | | |l]; try contradiction; try discriminate.
      exists l, w. split; [reflexivity | exact Hslot].
    - rewrite getInstance_empty by exact Ht. eexists _, _. split; [reflexivity|].
      simpl. rewrite length_app. simpl. lia. }
  exists l1, (length (Singleton.heap w1)), w1. eexists.
  split; [exact Hget|]. split.
  { unfold state_after. rewrite reset_spec. cbn [snd].
    rewrite getInstance_empty by reflexivity. simpl. reflexivity. }
  split; [lia|]. split; [apply lookup_ge_None; lia|]. split.
  { simpl. apply lookup_lt_is_Some. rewrite length_app. simpl. lia. }
  split; [apply lookup_lt_is_Some; exact Hlive|].
  simpl. apply lookup_app_l. exact Hlive.
Qed.

Lemma singleton_reset_then_getInstance_is_new_witness :
  exists l1 l2 w1 w3,
    Singleton.getInstance Singleton.initial = (Ok (VRef l1), w1) /\
    Singleton.getInstance (state_after Singleton.reset w1) = (Ok (VRef l2), w3) /\
    l1 <> l2 /\
    Singleton.heap w1 !! l2 = None /\
    is_Some (Singleton.heap w3 !! l2) /\
    is_Some (Singleton.heap w1 !! l1) /\
    Singleton.heap w3 !! l1 = Singleton.heap w1 !! l1.
Proof.
  apply (singleton_reset_then_getInstance_is_new Singleton.initial).
  split; [reflexivity | exact I].
Defined.

(** X6.  Once the slot is occupied, nothing but [reset()] changes the
    class: any sequence of [getInstance()] calls and rejected direct
    constructions leaves the slot, the flag and the heap as they were, so
    every [getInstance()] among them returns the one stored instance. *)
Theorem singleton_stable_until_reset (cs : list Singleton.Call) (w : Singleton.World) :
  Singleton.isCreating w = false ->
  truthy (Singleton.instance w) = true ->
  forallb (fun c => negb (Singleton.is_reset c)) cs = true ->
  Singleton.performAll cs w = w /\
  Singleton.getInstance (Singleton.performAll cs w) = (Ok (Singleton.instance w), w).
Proof.
  intros Hflag Ht Hcs.
  assert (Singleton.performAll cs w = w) as Hsame.
  { induction cs as [|c cs IH]; [reflexivity|].
    simpl in Hcs. apply andb_true_iff in Hcs as [Hc Hrest].
    change (Singleton.performAll (c :: cs) w)
      with (Singleton.performAll cs (Singleton.perform c w)).
    assert (Singleton.perform c w = w) as ->.
    { destruct c; unfold Singleton.perform, state_after.
      - rewrite getInstance_occupied by exact Ht. reflexivity.
      - discriminate.
      - rewrite constructor_forbidden by exact Hflag. reflexivity. }
    apply IH. exact Hrest. }
  split; [exact Hsame|]. rewrite Hsame. apply getInstance_occupied. exact Ht.
Qed.

Lemma singleton_stable_until_reset_witness :
  let w := Singleton.mkWorld (VRef 0) false [Singleton.mkObject "Singleton" "Creational" "d"] in
  let cs := [Singleton.CallGetInstance; Singleton.CallNew; Singleton.CallGetInstance] in
  Singleton.performAll cs w = w /\
  Singleton.getInstance (Singleton.performAll cs w) = (Ok (Singleton.instance w), w).
Proof.
  apply (singleton_stable_until_reset
           [Singleton.CallGetInstance; Singleton.CallNew; Singleton.CallGetInstance]
           (Singleton.mkWorld (VRef 0) false
              [Singleton.mkObject "Singleton" "Creational" "d"]));
    reflexivity.
Defined.

(** X7.  At most one Singleton is constructed between resets: after any
    sequence of [getInstance()], [reset()] and attempted direct
    constructions from the class as loaded, the number of Singleton
    objects ever constructed is at most one more than the number of
    [reset()] calls. *)
Theorem singleton_constructions_bounded_by_resets (cs : list Singleton.Call) :
  length (Singleton.heap (Singleton.performAll cs Singleton.initial))
  <= S (length (List.filter Singleton.is_reset cs)).
Proof.
  pose proof (performAll_heap_bound cs Singleton.initial initial_settled) as H.
  simpl in H. lia.
Qed.

(** X8.  The data of a LazySingleton is the time of the access that
    constructed it.  From an empty slot, an access at [now1] and a later one
    at [now2] return the same object, whose [getData()] is
    "Created at now1".  After [reset()], an access at [now3] returns another
    object whose [getData()] is "Created at now3", while the first object
    still answers "Created at now1". *)
Theorem lazy_data_is_time_of_constructing_access
    (now1 now2 now3 : string) (w : LazySingleton.World) :
  truthy (LazySingleton._instance w) = false ->
  exists l w1 w3,
    LazySingleton.get_instance now1 w = (Ok (VRef l), w1) /\
    LazySingleton.get_instance now2 w1 = (Ok (VRef l), w1) /\
    LazySingleton.getData l w1 = (Ok ("Created at " +:+ now1), w1) /\
    LazySingleton.get_instance now3 (state_after LazySingleton.reset w1)
    = (Ok (VRef (S l)), w3) /\
    LazySingleton.getData (S l) w3 = (Ok ("Created at " +:+ now3), w3) /\
    LazySingleton.getData l w3 = (Ok ("Created at " +:+ now1), w3).
Proof.
  intros Ht.
  exists (length (LazySingleton.heap w)). eexists. eexists.
  split; [apply get_instance_empty; exact Ht|].
  split; [apply get_instance_occupied; reflexivity|].
  split.
  { unfold LazySingleton.getData. simpl.
    rewrite list_lookup_middle by reflexivity. reflexivity. }
  split.
  { unfold state_after. simpl. rewrite get_instance_empty by reflexivity.
    simpl. rewrite length_app. simpl. rewrite Nat.add_1_r. reflexivity. }
  split.
  - unfold LazySingleton.getData. simpl.
    rewrite (list_lookup_middle _ [] _ (S (length (LazySingleton.heap w))))
      by (rewrite length_app; simpl; lia).
    reflexivity.
  - unfold LazySingleton.getData. simpl.
    rewrite lookup_app_l by (rewrite length_app; simpl; lia).
    rewrite list_lookup_middle by reflexivity. reflexivity.
Qed.

Lemma lazy_data_is_time_of_constructing_access_witness :
  exists l w1 w3,
    LazySingleton.get_instance "2024-01-01T00:00:00.000Z" LazySingleton.initial
    = (Ok (VRef l), w1) /\
    LazySingleton.get_instance "2024-01-02T00:00:00.000Z" w1 = (Ok (VRef l), w1) /\
    LazySingleton.getData l w1 = (Ok ("Created at " +:+ "2024-01-01T00:00:00.000Z"), w1) /\
    LazySingleton.get_instance "2024-01-03T00:00:00.000Z"
      (state_after LazySingleton.reset w1) = (Ok (VRef (S l)), w3) /\
    LazySingleton.getData (S l) w3
    = (Ok ("Created at " +:+ "2024-01-03T00:00:00.000Z"), w3) /\
    LazySingleton.getData l w3 = (Ok ("Created at " +:+ "2024-01-01T00:00:00.000Z"), w3).
Proof.
  apply (lazy_data_is_time_of_constructing_access
           "2024-01-01T00:00:00.000Z" "2024-01-02T00:00:00.000Z" "2024-01-03T00:00:00.000Z"
           LazySingleton.initial).
  reflexivity.
Defined.

(** ** ConcreteComputerBuilder: how the calls compose *)

Section ConcreteComposeFacts.

Import ConcreteComputerBuilder.

Lemma effect_set_commute f g v u b :
  f <> g ->
  effect (CallSet g u) (effect (CallSet f v) b) = effect (CallSet f v) (effect (CallSet g u) b).
Proof. intros Hne. destruct f, g; try reflexivity; contradiction. Qed.

Lemma effect_set_overwrite f v u b :
  effect (CallSet f u) (effect (CallSet f v) b) = effect (CallSet f u) b.
Proof. destruct f; reflexivity. Qed.

(** Two builders whose fields look alike to [build()] and to the Computer
    constructor: same required fields, and optional fields that are equal
    or both falsy. *)
Lemma alike_after cs : forall b1 b2,
  c_cpu b1 = c_cpu b2 -> c_ram b1 = c_ram b2 -> c_storage b1 = c_storage b2 ->
  (forall fs, push_if_truthy (c_gpu b1) fs = push_if_truthy (c_gpu b2) fs) ->
  (forall fs, push_if_truthy (c_powerSupply b1) fs = push_if_truthy (c_powerSupply b2) fs) ->
  (forall fs, push_if_truthy (c_motherboard b1) fs = push_if_truthy (c_motherboard b2) fs) ->
  c_cpu (fields_after cs b1) = c_cpu (fields_after cs b2) /\
  c_ram (fields_after cs b1) = c_ram (fields_after cs b2) /\
  c_storage (fields_after cs b1) = c_storage (fields_after cs b2) /\
  (forall fs, push_if_truthy (c_gpu (fields_after cs b1)) fs
              = push_if_truthy (c_gpu (fields_after cs b2)) fs) /\
  (forall fs, push_if_truthy (c_powerSupply (fields_after cs b1)) fs
              = push_if_truthy (c_powerSupply (fields_after cs b2)) fs) /\
  (forall fs, push_if_truthy (c_motherboard (fields_after cs b1)) fs
              = push_if_truthy (c_motherboard (fields_after cs b2)) fs).
Proof.
  induction cs as [|c cs IH]; intros b1 b2 Hc Hr Hs Hg Hp Hm.
  - simpl. repeat split; assumption.
  - change (fields_after (c :: cs) b1) with (fields_after cs (effect c b1)).
    change (fields_after (c :: cs) b2) with (fields_after cs (effect c b2)).
    destruct c as [[] v|]; apply IH; simpl; auto.
Qed.

End ConcreteComposeFacts.

(** X9.  On a ConcreteComputerBuilder, setters of different fields commute,
    a later call of a setter overrides an earlier call of the same setter,
    and [reset()] wipes out whatever calls came before it.  Each chain
    returns the builder it was started on. *)
Theorem concrete_calls_compose (h : Heap) (this : loc) (b : ConcreteFields) :
  h !! this = Some (ObjConcrete b) ->
  (forall f g v u, f <> g ->
     ConcreteComputerBuilder.chain this
       [ConcreteComputerBuilder.CallSet f v; ConcreteComputerBuilder.CallSet g u] h
     = ConcreteComputerBuilder.chain this
         [ConcreteComputerBuilder.CallSet g u; ConcreteComputerBuilder.CallSet f v] h) /\
  (forall f v u,
     ConcreteComputerBuilder.chain this
       [ConcreteComputerBuilder.CallSet f v; ConcreteComputerBuilder.CallSet f u] h
     = ConcreteComputerBuilder.chain this [ConcreteComputerBuilder.CallSet f u] h) /\
  (forall cs,
     ConcreteComputerBuilder.chain this (cs ++ [ConcreteComputerBuilder.CallReset]) h
     = ConcreteComputerBuilder.chain this [ConcreteComputerBuilder.CallReset] h) /\
  (forall cs, fst (ConcreteComputerBuilder.chain this cs h) = Ok this).
Proof.
  intros Hthis.
  pose proof (fun cs => chain_spec cs h this b Hthis) as Hchain.
  repeat split.
  - intros f g v u Hne. rewrite !Hchain.
    unfold ConcreteComputerBuilder.fields_after. cbn [foldl].
    rewrite (effect_set_commute f g v u b Hne). reflexivity.
  - intros f v u. rewrite !Hchain.
    unfold ConcreteComputerBuilder.fields_after. cbn [foldl].
    rewrite effect_set_overwrite. reflexivity.
  - intros cs. rewrite !Hchain.
    rewrite fields_after_snoc. reflexivity.
  - intros cs. rewrite Hchain. reflexivity.
Qed.

Lemma concrete_calls_compose_witness :
  ConcreteComputerBuilder.chain 0
    [ConcreteComputerBuilder.CallSet ConcreteComputerBuilder.CPU "Intel i5-11400";
     ConcreteComputerBuilder.CallSet ConcreteComputerBuilder.GPU "RTX 3080"]
    [ObjConcrete ConcreteComputerBuilder.fresh]
  = ConcreteComputerBuilder.chain 0
      [ConcreteComputerBuilder.CallSet ConcreteComputerBuilder.GPU "RTX 3080";
       ConcreteComputerBuilder.CallSet ConcreteComputerBuilder.CPU "Intel i5-11400"]
      [ObjConcrete ConcreteComputerBuilder.fresh].
Proof.
  apply (proj1 (concrete_calls_compose [ObjConcrete ConcreteComputerBuilder.fresh] 0
                  ConcreteComputerBuilder.fresh eq_refl)).
  discriminate.
Defined.



Lemma lookup_second_new {A} (h : list A) (a c : A) :
  (h ++ [a; c]) !! S (length h) = Some c.
Proof.
  rewrite lookup_app_r by lia.
  replace (S (length h) - length h) with 1 by lia. reflexivity.
Qed.

(** X11.  What [reset()] leaves in the optional fields does not show in
    [features] nor in [getInfo()].  For any calls [cs], building after
    [cs] on a new builder and building after [reset()] followed by [cs]
    either both throw or both return a Computer, and the two Computers
    have the same cpu, ram, storage, [features] and [getInfo()]. *)
Theorem reset_is_invisible_in_features (cs : list ConcreteComputerBuilder.Call) (h : Heap) :
  fst (ConcreteComputerBuilder.build_after cs h)
  = fst (ConcreteComputerBuilder.build_after (ConcreteComputerBuilder.CallReset :: cs) h) /\
  forall c1 c2,
    built (ConcreteComputerBuilder.build_after cs h) = Some c1 ->
    built (ConcreteComputerBuilder.build_after (ConcreteComputerBuilder.CallReset :: cs) h)
    = Some c2 ->
    cpu c1 = cpu c2 /\ ram c1 = ram c2 /\ storage c1 = storage c2 /\
    features c1 = features c2 /\ getInfo c1 = getInfo c2.
Proof.
  rewrite !build_after_spec. cbv zeta.
  change (ConcreteComputerBuilder.fields_after (ConcreteComputerBuilder.CallReset :: cs)
            ConcreteComputerBuilder.fresh)
    with (ConcreteComputerBuilder.fields_after cs
            (ConcreteComputerBuilder.cleared ConcreteComputerBuilder.fresh)).
  destruct (alike_after cs ConcreteComputerBuilder.fresh
              (ConcreteComputerBuilder.cleared ConcreteComputerBuilder.fresh))
    as (Hc & Hr & Hs & Hg & Hp & Hm); try reflexivity.
  set (b1 := ConcreteComputerBuilder.fields_after cs ConcreteComputerBuilder.fresh) in *.
  set (b2 := ConcreteComputerBuilder.fields_after cs
               (ConcreteComputerBuilder.cleared ConcreteComputerBuilder.fresh)) in *.
  rewrite <- Hc, <- Hr, <- Hs.
  destruct (negb (str_truthy (c_cpu b1)) || negb (str_truthy (c_ram b1))
            || negb (str_truthy (c_storage b1))).
  - split; [reflexivity|]. intros c1 c2 H1. discriminate.
  - split; [reflexivity|]. intros c1 c2 H1 H2.
    unfold built in H1, H2. rewrite lookup_second_new in H1, H2.
    injection H1 as <-. injection H2 as <-.
    assert (features (Computer_init (c_cpu b1) (c_ram b1) (c_storage b1)
                        (c_gpu b1) (c_powerSupply b1) (c_motherboard b1))
            = features (Computer_init (c_cpu b1) (c_ram b1) (c_storage b1)
                          (c_gpu b2) (c_powerSupply b2) (c_motherboard b2))) as Hfeatures.
    { simpl. rewrite Hm, Hp, Hg. reflexivity. }
    repeat split; try reflexivity.
    + exact Hfeatures.
    + unfold getInfo. rewrite Hfeatures. reflexivity.
Qed.

Lemma reset_is_invisible_in_features_witness :
  let cs := [ConcreteComputerBuilder.CallSet ConcreteComputerBuilder.CPU "Intel i5-11400";
             ConcreteComputerBuilder.CallSet ConcreteComputerBuilder.RAM "16GB DDR4";
             ConcreteComputerBuilder.CallSet ConcreteComputerBuilder.Storage "512GB SSD"] in
  let c1 := Computer_init "Intel i5-11400" "16GB DDR4" "512GB SSD" None None None in
  let c2 := Computer_init "Intel i5-11400" "16GB DDR4" "512GB SSD" (Some "") (Some "") (Some "") in
  cpu c1 = cpu c2 /\ ram c1 = ram c2 /\ storage c1 = storage c2 /\
  features c1 = features c2 /\ getInfo c1 = getInfo c2.
Proof.
  apply (proj2 (reset_is_invisible_in_features
                  [ConcreteComputerBuilder.CallSet ConcreteComputerBuilder.CPU "Intel i5-11400";
                   ConcreteComputerBuilder.CallSet ConcreteComputerBuilder.RAM "16GB DDR4";
                   ConcreteComputerBuilder.CallSet ConcreteComputerBuilder.Storage "512GB SSD"]
                  []));
    reflexivity.
Defined.

(** ** ComputerDirector: the office and server recipes *)

Section DirectorRecipeFacts.

Import ConcreteComputerBuilder ComputerDirector.

Ltac live :=
  first [ eassumption
        | apply list_lookup_insert_eq; rewrite ?length_insert;
          eapply lookup_lt_Some; eassumption ].

Ltac call c :=
  erewrite bind_returns; [| eapply (perform_spec _ _ _ c); live].

Lemma buildOfficeComputer_spec (d : Object) (h : Heap) (b : ConcreteFields) :
  h !! builder d = Some (ObjConcrete b) ->
  buildOfficeComputer d h =
    (Ok (length h),
     <[builder d := ObjConcrete (mkConcrete "Intel i5-11400" "16GB DDR4" "512GB SSD"
                                   (Some "") (Some "") (Some "MSI B560M Pro"))]> h
     ++ [ObjComputer (Computer_init "Intel i5-11400" "16GB DDR4" "512GB SSD"
                        (Some "") (Some "") (Some "MSI B560M Pro"))]).
Proof.
  intros Hthis. unfold buildOfficeComputer.
  call CallReset.
  call (CallSet CPU "Intel i5-11400").
  call (CallSet RAM "16GB DDR4").
  call (CallSet Storage "512GB SSD").
  call (CallSet Motherboard "MSI B560M Pro").
  erewrite build_spec by live.
  rewrite !list_insert_insert_eq. simpl. rewrite length_insert. reflexivity.
Qed.

Lemma buildServerComputer_spec (d : Object) (h : Heap) (b : ConcreteFields) :
  h !! builder d = Some (ObjConcrete b) ->
  buildServerComputer d h =
    (Ok (length h),
     <[builder d := ObjConcrete (mkConcrete "AMD EPYC 7742" "128GB DDR4 ECC" "2TB NVMe SSD"
                                   (Some "") (Some "1200W Platinum")
                                   (Some "Supermicro H12SSL-i"))]> h
     ++ [ObjComputer (Computer_init "AMD EPYC 7742" "128GB DDR4 ECC" "2TB NVMe SSD"
                        (Some "") (Some "1200W Platinum") (Some "Supermicro H12SSL-i"))]).
Proof.
  intros Hthis. unfold buildServerComputer.
  call CallReset.
  call (CallSet CPU "AMD EPYC 7742").
  call (CallSet RAM "128GB DDR4 ECC").
  call (CallSet Storage "2TB NVMe SSD").
  call (CallSet PowerSupply "1200W Platinum").
  call (CallSet Motherboard "Supermicro H12SSL-i").
  erewrite build_spec by live.
  rewrite !list_insert_insert_eq. simpl. rewrite length_insert. reflexivity.
Qed.

Lemma built_appended (h h' : Heap) (c : Computer) :
  length h' = length h -> built (Ok (length h), h' ++ [ObjComputer c]) = Some c.
Proof.
  intros Hlen. unfold built. rewrite <- Hlen.
  rewrite list_lookup_middle by reflexivity. reflexivity.
Qed.

End DirectorRecipeFacts.

(** X12.  A recipe of the director does not depend on what the builder
    held before, because it starts with [reset()]: whatever the fields of
    the builder, [buildOfficeComputer()] and [buildServerComputer()] return
    a new Computer with the recipe's values and nothing left over from
    earlier use; the optional fields the recipe does not set are [''] and
    do not appear in [features] and [getInfo()]. *)
Theorem director_recipes_ignore_builder_state
    (d : ComputerDirector.Object) (h : Heap) (b : ConcreteFields) :
  h !! ComputerDirector.builder d = Some (ObjConcrete b) ->
  let office := Computer_init "Intel i5-11400" "16GB DDR4" "512GB SSD"
                  (Some "") (Some "") (Some "MSI B560M Pro") in
  let server := Computer_init "AMD EPYC 7742" "128GB DDR4 ECC" "2TB NVMe SSD"
                  (Some "") (Some "1200W Platinum") (Some "Supermicro H12SSL-i") in
  fst (ComputerDirector.buildOfficeComputer d h) = Ok (length h) /\
  built (ComputerDirector.buildOfficeComputer d h) = Some office /\
  features office = ["Intel i5-11400"; "16GB DDR4"; "512GB SSD"; "MSI B560M Pro"] /\
  getInfo office = "Custom Computer: Intel i5-11400, 16GB DDR4, 512GB SSD, MSI B560M Pro" /\
  fst (ComputerDirector.buildServerComputer d h) = Ok (length h) /\
  built (ComputerDirector.buildServerComputer d h) = Some server /\
  features server = ["AMD EPYC 7742"; "128GB DDR4 ECC"; "2TB NVMe SSD"; "1200W Platinum";
                     "Supermicro H12SSL-i"] /\
  getInfo server
  = "Custom Computer: AMD EPYC 7742, 128GB DDR4 ECC, 2TB NVMe SSD, 1200W Platinum, Supermicro H12SSL-i".
Proof.
  intros Hthis office server.
  rewrite (buildOfficeComputer_spec d h b Hthis), (buildServerComputer_spec d h b Hthis).
  repeat split; apply built_appended; apply length_insert.
Qed.

Lemma director_recipes_ignore_builder_state_witness :
  built (ComputerDirector.buildOfficeComputer (ComputerDirector.mkDirector 0)
           [ObjConcrete (mkConcrete "Intel i9-11900K" "32GB DDR4" "1TB NVMe SSD"
                           (Some "RTX 3080") (Some "850W Gold")
                           (Some "ASUS ROG Strix Z590-E"))])
  = Some (Computer_init "Intel i5-11400" "16GB DDR4" "512GB SSD"
            (Some "") (Some "") (Some "MSI B560M Pro")).
Proof.
  apply (director_recipes_ignore_builder_state (ComputerDirector.mkDirector 0)
           [ObjConcrete (mkConcrete "Intel i9-11900K" "32GB DDR4" "1TB NVMe SSD"
                           (Some "RTX 3080") (Some "850W Gold")
                           (Some "ASUS ROG Strix Z590-E"))]
           (mkConcrete "Intel i9-11900K" "32GB DDR4" "1TB NVMe SSD"
              (Some "RTX 3080") (Some "850W Gold") (Some "ASUS ROG Strix Z590-E"))
           eq_refl).
Defined.

(** ** FluentComputerBuilder and StepComputerBuilder *)

Section FluentFacts.

Import FluentComputerBuilder.

Lemma fluent_perform_spec (h : Heap) this b f v :
  h !! this = Some (ObjFluent b) ->
  perform this f v h = (Ok this, <[this := ObjFluent (effect f v b)]> h).
Proof.
  intros Hthis.
  assert (load this h = (Ok b, h)) as Hload by (unfold load; rewrite Hthis; reflexivity).
  destruct f; simpl;
    unfold cpu, ram, storage, gpu, powerSupply, motherboard;
    rewrite (bind_returns _ _ _ _ _ Hload); reflexivity.
Qed.

Lemma fluent_chain_spec cs : forall (h : Heap) this b,
  h !! this = Some (ObjFluent b) ->
  chain this cs h = (Ok this, <[this := ObjFluent (fields_after cs b)]> h).
Proof.
  induction cs as [|[f v] cs IH]; intros h this b Hthis; simpl.
  - unfold ret. rewrite list_insert_id by exact Hthis. reflexivity.
  - rewrite (bind_returns _ _ _ _ _ (fluent_perform_spec h this b f v Hthis)).
    rewrite (IH _ this (effect f v b)).
    + rewrite list_insert_insert_eq. reflexivity.
    + apply list_lookup_insert_eq. eapply lookup_lt_Some. exact Hthis.
Qed.

Lemma fluent_build_after_spec cs (h : Heap) :
  build_after cs h =
    let b := fields_after cs fresh in
    if negb (opt_truthy (f_cpu b)) || negb (opt_truthy (f_ram b)) || negb (opt_truthy (f_storage b))
    then (Throw RequiredMissing, h ++ [ObjFluent b])
    else (Ok (S (length h)),
          h ++ [ObjFluent b;
                ObjComputer (Computer_init (default "" (f_cpu b)) (default "" (f_ram b))
                               (default "" (f_storage b))
                               (f_gpu b) (f_powerSupply b) (f_motherboard b))]).
Proof.
  unfold build_after, new.
  rewrite (bind_returns _ _ h (length h) (h ++ [ObjFluent fresh])) by reflexivity.
  rewrite (bind_returns _ _ _ _ _
             (fluent_chain_spec cs (h ++ [ObjFluent fresh]) (length h) fresh
                (list_lookup_middle h [] _ _ eq_refl))).
  replace (<[length h := ObjFluent (fields_after cs fresh)]> (h ++ [ObjFluent fresh]))
    with (h ++ [ObjFluent (fields_after cs fresh)])
    by (rewrite <- (Nat.add_0_r (length h)) at 1; rewrite insert_app_r; reflexivity).
  unfold build, load, bind.
  rewrite (list_lookup_middle h [] _ (length h)) by reflexivity.
  cbv zeta.
  destruct (negb (opt_truthy (f_cpu (fields_after cs fresh)))
            || negb (opt_truthy (f_ram (fields_after cs fresh)))
            || negb (opt_truthy (f_storage (fields_after cs fresh)))).
  - reflexivity.
  - unfold alloc. rewrite length_app, <- app_assoc. simpl. rewrite Nat.add_1_r. reflexivity.
Qed.

End FluentFacts.

Section StepFacts.

Import StepComputerBuilder.

Lemma step_perform_spec (h : Heap) this b f v :
  h !! this = Some (ObjStep b) ->
  perform this f v h = (Ok this, <[this := ObjStep (effect f v b)]> h).
Proof.
  intros Hthis.
  assert (load this h = (Ok b, h)) as Hload by (unfold load; rewrite Hthis; reflexivity).
  destruct f; simpl;
    unfold cpu, ram, storage, gpu, powerSupply, motherboard;
    rewrite (bind_returns _ _ _ _ _ Hload); reflexivity.
Qed.

Lemma step_chain_spec cs : forall (h : Heap) this b,
  h !! this = Some (ObjStep b) ->
  chain this cs h = (Ok this, <[this := ObjStep (fields_after cs b)]> h).
Proof.
  induction cs as [|[f v] cs IH]; intros h this b Hthis; simpl.
  - unfold ret. rewrite list_insert_id by exact Hthis. reflexivity.
  - rewrite (bind_returns _ _ _ _ _ (step_perform_spec h this b f v Hthis)).
    rewrite (IH _ this (effect f v b)).
    + rewrite list_insert_insert_eq. reflexivity.
    + apply list_lookup_insert_eq. eapply lookup_lt_Some. exact Hthis.
Qed.

Lemma step_build_after_spec cs (h : Heap) :
  build_after cs h =
    let b := fields_after cs fresh in
    if negb (str_truthy (cpuValue b)) || negb (str_truthy (ramValue b))
       || negb (str_truthy (storageValue b))
    then (Throw RequiredMissing, h ++ [ObjStep b])
    else (Ok (S (length h)),
          h ++ [ObjStep b;
                ObjComputer (Computer_init (cpuValue b) (ramValue b) (storageValue b)
                               (gpuValue b) (powerSupplyValue b) (motherboardValue b))]).
Proof.
  unfold build_after, create.
  rewrite (bind_returns _ _ h (length h) (h ++ [ObjStep fresh])) by reflexivity.
  rewrite (bind_returns _ _ _ _ _
             (step_chain_spec cs (h ++ [ObjStep fresh]) (length h) fresh
                (list_lookup_middle h [] _ _ eq_refl))).
  replace (<[length h := ObjStep (fields_after cs fresh)]> (h ++ [ObjStep fresh]))
    with (h ++ [ObjStep (fields_after cs fresh)])
    by (rewrite <- (Nat.add_0_r (length h)) at 1; rewrite insert_app_r; reflexivity).
  unfold build, load, bind.
  rewrite (list_lookup_middle h [] _ (length h)) by reflexivity.
  cbv zeta.
  destruct (negb (str_truthy (cpuValue (fields_after cs fresh)))
            || negb (str_truthy (ramValue (fields_after cs fresh)))
            || negb (str_truthy (storageValue (fields_after cs fresh)))).
  - reflexivity.
  - unfold alloc. rewrite length_app, <- app_assoc. simpl. rewrite Nat.add_1_r. reflexivity.
Qed.

End StepFacts.

Section AgreementFacts.

(** The calls of a ConcreteComputerBuilder that correspond to a list of
    setter calls. *)
Lemma fields_correspond (cs : list (ConcreteComputerBuilder.Field * string)) :
  forall bc bf bs,
    c_cpu bc = default "" (f_cpu bf) -> c_ram bc = default "" (f_ram bf) ->
    c_storage bc = default "" (f_storage bf) ->
    c_gpu bc = f_gpu bf -> c_powerSupply bc = f_powerSupply bf ->
    c_motherboard bc = f_motherboard bf ->
    bs = mkStep (c_cpu bc) (c_ram bc) (c_storage bc)
           (c_gpu bc) (c_powerSupply bc) (c_motherboard bc) ->
    let bc' := ConcreteComputerBuilder.fields_after
                 (map (fun c => ConcreteComputerBuilder.CallSet (fst c) (snd c)) cs) bc in
    let bf' := FluentComputerBuilder.fields_after cs bf in
    let bs' := StepComputerBuilder.fields_after cs bs in
    c_cpu bc' = default "" (f_cpu bf') /\ c_ram bc' = default "" (f_ram bf') /\
    c_storage bc' = default "" (f_storage bf') /\
    c_gpu bc' = f_gpu bf' /\ c_powerSupply bc' = f_powerSupply bf' /\
    c_motherboard bc' = f_motherboard bf' /\
    bs' = mkStep (c_cpu bc') (c_ram bc') (c_storage bc')
            (c_gpu bc') (c_powerSupply bc') (c_motherboard bc').
Proof.
  induction cs as [|[f v] cs IH]; intros bc bf bs Hc Hr Hs Hg Hp Hm Hbs.
  - simpl. repeat split; assumption.
  - apply IH; subst bs; destruct f; simpl; try assumption; reflexivity.
Qed.

Lemma opt_truthy_default (o : option string) :
  opt_truthy o = str_truthy (default "" o).
Proof. destruct o; reflexivity. Qed.

End AgreementFacts.

(** X13.  The three builders agree.  For any sequence of setter calls,
    made on a new ConcreteComputerBuilder, a new FluentComputerBuilder and
    a new StepComputerBuilder, the three [build()] calls either all throw
    [Error('CPU, RAM, and Storage are required')] or all return a reference
    to a new Computer, and the three Computers are equal. *)
Theorem three_builders_agree
    (cs : list (ConcreteComputerBuilder.Field * string)) (h : Heap) :
  let calls := map (fun c => ConcreteComputerBuilder.CallSet (fst c) (snd c)) cs in
  (fst (ConcreteComputerBuilder.build_after calls h) = Throw RequiredMissing /\
   fst (FluentComputerBuilder.build_after cs h) = Throw RequiredMissing /\
   fst (StepComputerBuilder.build_after cs h) = Throw RequiredMissing) \/
  (exists product,
     fst (ConcreteComputerBuilder.build_after calls h) = Ok (S (length h)) /\
     fst (FluentComputerBuilder.build_after cs h) = Ok (S (length h)) /\
     fst (StepComputerBuilder.build_after cs h) = Ok (S (length h)) /\
     built (ConcreteComputerBuilder.build_after calls h) = Some product /\
     built (FluentComputerBuilder.build_after cs h) = Some product /\
     built (StepComputerBuilder.build_after cs h) = Some product).
Proof.
  intros calls.
  rewrite build_after_spec, fluent_build_after_spec, step_build_after_spec. cbv zeta.
  destruct (fields_correspond cs ConcreteComputerBuilder.fresh FluentComputerBuilder.fresh
              StepComputerBuilder.fresh)
    as (Hc & Hr & Hs & Hg & Hp & Hm & Hbs); try reflexivity.
  fold calls in Hc, Hr, Hs, Hg, Hp, Hm, Hbs.
  set (bc := ConcreteComputerBuilder.fields_after calls ConcreteComputerBuilder.fresh) in *.
  set (bf := FluentComputerBuilder.fields_after cs FluentComputerBuilder.fresh) in *.
  rewrite Hbs. simpl cpuValue. simpl ramValue. simpl storageValue.
  simpl gpuValue. simpl powerSupplyValue. simpl motherboardValue.
  rewrite !opt_truthy_default, <- Hc, <- Hr, <- Hs, <- Hg, <- Hp, <- Hm.
  destruct (negb (str_truthy (c_cpu bc)) || negb (str_truthy (c_ram bc))
            || negb (str_truthy (c_storage bc))).
  - left. repeat split.
  - right. eexists. repeat split; unfold built; rewrite lookup_second_new; reflexivity.
Qed.

(** ** DatabaseConnection, a client of the registry *)

Section DatabaseFacts.

Import SingletonRegistry DatabaseConnection.

Lemma get_field_live (p : Process) this o name :
  heap (world p) !! this = Some o ->
  get_field this name p = (Ok (default VUndefined (o !! name)), p).
Proof. intros Hthis. unfold get_field. rewrite Hthis. reflexivity. Qed.

Lemma set_field_live (p : Process) this o name v :
  heap (world p) !! this = Some o ->
  set_field this name v p
  = (Ok tt, mkProcess (mkWorld (instances (world p))
                         (<[this := <[name := v]> o]> (heap (world p))))
              (invocations p) (console p)).
Proof. intros Hthis. unfold set_field. rewrite Hthis. reflexivity. Qed.

(** [connect()] on a connection that is not open: one line is logged and
    the flag is set. *)
Lemma connect_closed (p : Process) this o :
  heap (world p) !! this = Some o ->
  truthy (default VUndefined (o !! "isConnected")) = false ->
  connect this p
  = (Ok tt,
     mkProcess (mkWorld (instances (world p))
                  (<[this := <["isConnected" := VBool true]> o]> (heap (world p))))
       (invocations p)
       (console p ++ ["Connecting to database: "
                      +:+ to_string (default VUndefined (o !! "connectionString"))])).
Proof.
  intros Hthis Hclosed. unfold connect.
  rewrite (bind_returns _ _ _ _ _ (get_field_live p this o _ Hthis)). rewrite Hclosed.
  cbn [negb].
  rewrite (bind_returns _ _ _ _ _ (get_field_live p this o _ Hthis)).
  unfold bind, console_log, modify.
  rewrite (set_field_live _ this o) by exact Hthis. reflexivity.
Qed.

Lemma connect_open (p : Process) this o :
  heap (world p) !! this = Some o ->
  truthy (default VUndefined (o !! "isConnected")) = true ->
  connect this p = (Ok tt, p).
Proof.
  intros Hthis Hopen. unfold connect.
  rewrite (bind_returns _ _ _ _ _ (get_field_live p this o _ Hthis)). rewrite Hopen.
  reflexivity.
Qed.

Lemma disconnect_open (p : Process) this o :
  heap (world p) !! this = Some o ->
  truthy (default VUndefined (o !! "isConnected")) = true ->
  disconnect this p
  = (Ok tt,
     mkProcess (mkWorld (instances (world p))
                  (<[this := <["isConnected" := VBool false]> o]> (heap (world p))))
       (invocations p)
       (console p ++ ["Disconnecting from database"])).
Proof.
  intros Hthis Hopen. unfold disconnect.
  rewrite (bind_returns _ _ _ _ _ (get_field_live p this o _ Hthis)). rewrite Hopen.
  unfold bind, console_log, modify.
  rewrite (set_field_live _ this o) by exact Hthis. reflexivity.
Qed.

Lemma disconnect_closed (p : Process) this o :
  heap (world p) !! this = Some o ->
  truthy (default VUndefined (o !! "isConnected")) = false ->
  disconnect this p = (Ok tt, p).
Proof.
  intros Hthis Hclosed. unfold disconnect.
  rewrite (bind_returns _ _ _ _ _ (get_field_live p this o _ Hthis)). rewrite Hclosed.
  reflexivity.
Qed.

Lemma query_closed (p : Process) this o sql :
  heap (world p) !! this = Some o ->
  truthy (default VUndefined (o !! "isConnected")) = false ->
  query this sql p = (Throw (Error "Database not connected"), p).
Proof.
  intros Hthis Hclosed. unfold query.
  rewrite (bind_returns _ _ _ _ _ (get_field_live p this o _ Hthis)). rewrite Hclosed.
  reflexivity.
Qed.

Lemma query_open (p : Process) this o sql :
  heap (world p) !! this = Some o ->
  truthy (default VUndefined (o !! "isConnected")) = true ->
  query this sql p
  = (Ok (VRef (S (length (heap (world p))))),
     mkProcess (mkWorld (instances (world p))
                  (heap (world p)
                   ++ [<["name" := VStr "Sample Data"]> {["id" := VNum 1]};
                       <["length" := VNum 1]> {["0" := VRef (length (heap (world p)))]}]))
       (invocations p)
       (console p ++ ["Executing query: " +:+ sql])).
Proof.
  intros Hthis Hopen. unfold query.
  rewrite (bind_returns _ _ _ _ _ (get_field_live p this o _ Hthis)). rewrite Hopen.
  unfold bind, console_log, modify, alloc, ret. simpl.
  rewrite length_app, <- app_assoc. simpl. rewrite Nat.add_1_r. reflexivity.
Qed.

Lemma after_set_flag (h : list (gmap string Value)) this o b :
  h !! this = Some o ->
  <[this := <["isConnected" := VBool b]> o]> h !! this
  = Some (<["isConnected" := VBool b]> o) /\
  default VUndefined (<["isConnected" := VBool b]> o !! "isConnected") = VBool b.
Proof.
  intros Hthis. split.
  - apply list_lookup_insert_eq. eapply lookup_lt_Some. exact Hthis.
  - rewrite lookup_insert_eq. reflexivity.
Qed.

End DatabaseFacts.

(** X14.  [query] needs an open connection.  On a connection that is not
    open [query(sql)] throws [Error('Database not connected')] and changes
    nothing, logging nothing.  After [connect()] it logs one line and
    returns a new array holding one new row [{ id: 1, name: 'Sample Data' }];
    after [disconnect()] it throws again. *)
Theorem db_query_requires_open_connection
    (p : DatabaseConnection.Process) (this : loc) (o : gmap string Value) (sql : string) :
  SingletonRegistry.heap (DatabaseConnection.world p) !! this = Some o ->
  truthy (default VUndefined (o !! "isConnected")) = false ->
  let p1 := state_after (DatabaseConnection.connect this) p in
  let p2 := state_after (DatabaseConnection.query this sql) p1 in
  let p3 := state_after (DatabaseConnection.disconnect this) p2 in
  let n := length (SingletonRegistry.heap (DatabaseConnection.world p)) in
  DatabaseConnection.query this sql p = (Throw (Error "Database not connected"), p) /\
  DatabaseConnection.query this sql p1 = (Ok (VRef (S n)), p2) /\
  SingletonRegistry.heap (DatabaseConnection.world p2) !! S n
  = Some (<["length" := VNum 1]> {["0" := VRef n]}) /\
  SingletonRegistry.heap (DatabaseConnection.world p2) !! n
  = Some (<["name" := VStr "Sample Data"]> {["id" := VNum 1]}) /\
  DatabaseConnection.console p2
  = DatabaseConnection.console p
    ++ ["Connecting to database: "
        +:+ DatabaseConnection.to_string (default VUndefined (o !! "connectionString"));
        "Executing query: " +:+ sql] /\
  DatabaseConnection.query this sql p3 = (Throw (Error "Database not connected"), p3).
Proof.
  intros Hthis Hclosed p1 p2 p3 n.
  pose proof (lookup_lt_Some _ _ _ Hthis) as Hlt.
  destruct (after_set_flag _ this o true Hthis) as [Hlive1 Hflag1].
  assert (p1 = DatabaseConnection.mkProcess
                 (SingletonRegistry.mkWorld
                    (SingletonRegistry.instances (DatabaseConnection.world p))
                    (<[this := <["isConnected" := VBool true]> o]>
                       (SingletonRegistry.heap (DatabaseConnection.world p))))
                 (DatabaseConnection.invocations p)
                 (DatabaseConnection.console p
                  ++ ["Connecting to database: "
                      +:+ DatabaseConnection.to_string
                            (default VUndefined (o !! "connectionString"))])) as Hp1.
  { subst p1. unfold state_after. rewrite (connect_closed p this o Hthis Hclosed). reflexivity. }
  assert (DatabaseConnection.query this sql p1
          = (Ok (VRef (S n)),
             DatabaseConnection.mkProcess
               (SingletonRegistry.mkWorld
                  (SingletonRegistry.instances (DatabaseConnection.world p))
                  (<[this := <["isConnected" := VBool true]> o]>
                     (SingletonRegistry.heap (DatabaseConnection.world p))
                   ++ [<["name" := VStr "Sample Data"]> {["id" := VNum 1]};
                       <["length" := VNum 1]> {["0" := VRef n]}]))
               (DatabaseConnection.invocations p)
               ((DatabaseConnection.console p
                 ++ ["Connecting to database: "
                     +:+ DatabaseConnection.to_string
                           (default VUndefined (o !! "connectionString"))])
                ++ ["Executing query: " +:+ sql]))) as Hq.
  { rewrite Hp1.
    rewrite (query_open _ this (<["isConnected" := VBool true]> o) sql);
      [| exact Hlive1 | rewrite Hflag1; reflexivity].
    simpl. rewrite length_insert. reflexivity. }
  assert (p2 = snd (DatabaseConnection.query this sql p1)) as Hp2 by reflexivity.
  rewrite Hq in Hp2. cbn [snd] in Hp2.
  split; [apply (query_closed p this o sql Hthis Hclosed)|].
  split; [rewrite Hp2; exact Hq|].
  split.
  { rewrite Hp2. simpl.
    replace (S n) with (S (length (<[this := <["isConnected" := VBool true]> o]>
                                     (SingletonRegistry.heap (DatabaseConnection.world p)))))
      by (rewrite length_insert; reflexivity).
    apply lookup_second_new. }
  split.
  { rewrite Hp2. simpl. apply list_lookup_middle. rewrite length_insert. reflexivity. }
  split.
  { rewrite Hp2. simpl. rewrite <- app_assoc. reflexivity. }
  assert (SingletonRegistry.heap (DatabaseConnection.world p2) !! this
          = Some (<["isConnected" := VBool true]> o)) as Hlive2.
  { rewrite Hp2. simpl. rewrite lookup_app_l by (rewrite length_insert; exact Hlt).
    exact Hlive1. }
  destruct (after_set_flag _ this _ false Hlive2) as [Hlive3 Hflag3].
  assert (p3 = snd (DatabaseConnection.disconnect this p2)) as Hp3 by reflexivity.
  rewrite (disconnect_open p2 this _ Hlive2) in Hp3 by (rewrite Hflag1; reflexivity).
  cbn [snd] in Hp3.
  apply (query_closed p3 this (<["isConnected" := VBool false]>
                                 (<["isConnected" := VBool true]> o)) sql).
  - rewrite Hp3. simpl. exact Hlive3.
  - rewrite Hflag3. reflexivity.
Qed.

Lemma db_query_requires_open_connection_witness :
  let p := DatabaseConnection.mkProcess
             (SingletonRegistry.mkWorld {["DatabaseConnection" := VRef 0]}
                [DatabaseConnection.fresh]) 1 [] in
  DatabaseConnection.query 0 "SELECT * FROM users" p
  = (Throw (Error "Database not connected"), p).
Proof.
  apply (proj1 (db_query_requires_open_connection
                  (DatabaseConnection.mkProcess
                     (SingletonRegistry.mkWorld {["DatabaseConnection" := VRef 0]}
                        [DatabaseConnection.fresh]) 1 [])
                  0 DatabaseConnection.fresh "SELECT * FROM users" eq_refl eq_refl)).
Defined.

(** X15.  [connect()] and [disconnect()] are idempotent: a second call in
    a row changes nothing and logs nothing.  On a connection that is
    closed, [connect()] followed by [disconnect()] brings every object and
    the registry back to what they were, the console having received the
    two lines. *)
Theorem db_connect_disconnect_idempotent
    (p : DatabaseConnection.Process) (this : loc) (o : gmap string Value) :
  SingletonRegistry.heap (DatabaseConnection.world p) !! this = Some o ->
  state_after (DatabaseConnection.connect this) (state_after (DatabaseConnection.connect this) p)
  = state_after (DatabaseConnection.connect this) p /\
  state_after (DatabaseConnection.disconnect this)
    (state_after (DatabaseConnection.disconnect this) p)
  = state_after (DatabaseConnection.disconnect this) p /\
  (o !! "isConnected" = Some (VBool false) ->
   let p2 := state_after (DatabaseConnection.disconnect this)
               (state_after (DatabaseConnection.connect this) p) in
   DatabaseConnection.world p2 = DatabaseConnection.world p /\
   DatabaseConnection.invocations p2 = DatabaseConnection.invocations p /\
   DatabaseConnection.console p2
   = DatabaseConnection.console p
     ++ ["Connecting to database: "
         +:+ DatabaseConnection.to_string (default VUndefined (o !! "connectionString"));
         "Disconnecting from database"]).
Proof.
  intros Hthis.
  destruct (after_set_flag _ this o true Hthis) as [Hlive1 Hflag1].
  destruct (after_set_flag _ this o false Hthis) as [Hlive0 Hflag0].
  split; [|split].
  - unfold state_after.
    destruct (truthy (default VUndefined (o !! "isConnected"))) eqn:Hopen.
    + rewrite (connect_open p this o Hthis Hopen). cbn [snd].
      rewrite (connect_open p this o Hthis Hopen). reflexivity.
    + rewrite (connect_closed p this o Hthis Hopen). cbn [snd].
      rewrite (connect_open _ this (<["isConnected" := VBool true]> o));
        [reflexivity | exact Hlive1 | rewrite Hflag1; reflexivity].
  - unfold state_after.
    destruct (truthy (default VUndefined (o !! "isConnected"))) eqn:Hopen.
    + rewrite (disconnect_open p this o Hthis Hopen). cbn [snd].
      rewrite (disconnect_closed _ this (<["isConnected" := VBool false]> o));
        [reflexivity | exact Hlive0 | rewrite Hflag0; reflexivity].
    + rewrite (disconnect_closed p this o Hthis Hopen). cbn [snd].
      rewrite (disconnect_closed p this o Hthis Hopen). reflexivity.
  - intros Hclosed. cbv zeta. unfold state_after.
    rewrite (connect_closed p this o Hthis) by (rewrite Hclosed; reflexivity). cbn [snd].
    rewrite (disconnect_open _ this (<["isConnected" := VBool true]> o));
      [| exact Hlive1 | rewrite Hflag1; reflexivity].
    cbn [snd DatabaseConnection.world DatabaseConnection.invocations
           DatabaseConnection.console SingletonRegistry.instances SingletonRegistry.heap].
    split; [|split; [reflexivity | rewrite <- app_assoc; reflexivity]].
    rewrite list_insert_insert_eq, insert_insert_eq.
    rewrite (insert_id o _ _ Hclosed), (list_insert_id _ _ _ Hthis).
    destruct (DatabaseConnection.world p); reflexivity.
Qed.

Lemma db_connect_disconnect_idempotent_witness :
  let p := DatabaseConnection.mkProcess
             (SingletonRegistry.mkWorld {["DatabaseConnection" := VRef 0]}
                [DatabaseConnection.fresh]) 1 [] in
  state_after (DatabaseConnection.connect 0) (state_after (DatabaseConnection.connect 0) p)
  = state_after (DatabaseConnection.connect 0) p.
Proof.
  apply (proj1 (db_connect_disconnect_idempotent
                  (DatabaseConnection.mkProcess
                     (SingletonRegistry.mkWorld {["DatabaseConnection" := VRef 0]}
                        [DatabaseConnection.fresh]) 1 [])
                  0 DatabaseConnection.fresh eq_refl)).
Defined.

(** X16.  All holders of the DatabaseConnection share one connection.
    When the registry has no 'DatabaseConnection' entry, two
    [DatabaseConnection.getInstance()] calls return the same reference,
    the constructor having run once; [connect()] through the first is seen
    by [isConnectionOpen()] through the second, and one
    "Connecting to database" line was logged. *)
Theorem db_instances_share_one_connection (p : DatabaseConnection.Process) :
  SingletonRegistry.instances (DatabaseConnection.world p) !! "DatabaseConnection" = None ->
  let n := length (SingletonRegistry.heap (DatabaseConnection.world p)) in
  exists p',
    (let* db1 := DatabaseConnection.getInstance in
     let* db2 := DatabaseConnection.getInstance in
     DatabaseConnection.on db1 DatabaseConnection.connect ;;;
     let* open := DatabaseConnection.on db2 DatabaseConnection.isConnectionOpen in
     ret (db1, db2, open)) p
    = (Ok (VRef n, VRef n, VBool true), p') /\
    DatabaseConnection.invocations p' = S (DatabaseConnection.invocations p) /\
    SingletonRegistry.heap (DatabaseConnection.world p')
    = SingletonRegistry.heap (DatabaseConnection.world p)
      ++ [<["isConnected" := VBool true]> DatabaseConnection.fresh] /\
    DatabaseConnection.console p'
    = DatabaseConnection.console p
      ++ ["Connecting to database: mongodb://localhost:27017/myapp"].
Proof.
  intros Habsent n.
  set (w1 := SingletonRegistry.with_instances (insert "DatabaseConnection" (VRef n))
               (SingletonRegistry.mkWorld
                  (SingletonRegistry.instances (DatabaseConnection.world p))
                  (SingletonRegistry.heap (DatabaseConnection.world p)
                   ++ [DatabaseConnection.fresh]))).
  set (p1 := DatabaseConnection.mkProcess w1 (S (DatabaseConnection.invocations p))
               (DatabaseConnection.console p)).
  assert (DatabaseConnection.getInstance p = (Ok (VRef n), p1)) as Hfirst.
  { unfold DatabaseConnection.getInstance, DatabaseConnection.liftRegistry.
    rewrite (getInstance_absent_returns "DatabaseConnection" DatabaseConnection.new
               (DatabaseConnection.world p) _ (DatabaseConnection.invocations p) _
               Habsent eq_refl).
    reflexivity. }
  assert (DatabaseConnection.getInstance p1 = (Ok (VRef n), p1)) as Hsecond.
  { unfold DatabaseConnection.getInstance, DatabaseConnection.liftRegistry.
    rewrite (getInstance_present "DatabaseConnection" DatabaseConnection.new
               (DatabaseConnection.world p1) (DatabaseConnection.invocations p1) (VRef n))
      by apply lookup_insert_eq.
    reflexivity. }
  assert (SingletonRegistry.heap (DatabaseConnection.world p1) !! n
          = Some DatabaseConnection.fresh) as Hlive
    by (apply list_lookup_middle; reflexivity).
  destruct (after_set_flag _ n _ true Hlive) as [Hlive' Hflag'].
  eexists.
  rewrite (bind_returns _ _ _ _ _ Hfirst), (bind_returns _ _ _ _ _ Hsecond).
  cbn [DatabaseConnection.on].
  rewrite (bind_returns _ _ _ _ _
             (connect_closed p1 n DatabaseConnection.fresh Hlive eq_refl)).
  unfold DatabaseConnection.isConnectionOpen.
  erewrite bind_returns; [| apply get_field_live; exact Hlive'].
  rewrite Hflag'. unfold ret.
  split; [reflexivity|]. split; [reflexivity|]. split; [|reflexivity].
  cbn [DatabaseConnection.world SingletonRegistry.heap].
  subst p1 w1. cbn [DatabaseConnection.world SingletonRegistry.heap
                      SingletonRegistry.with_instances].
  replace n with (length (SingletonRegistry.heap (DatabaseConnection.world p)) + 0)
    at 1 by (subst n; lia).
  rewrite insert_app_r. reflexivity.
Qed.

Lemma db_instances_share_one_connection_witness :
  exists p',
    (let* db1 := DatabaseConnection.getInstance in
     let* db2 := DatabaseConnection.getInstance in
     DatabaseConnection.on db1 DatabaseConnection.connect ;;;
     let* open := DatabaseConnection.on db2 DatabaseConnection.isConnectionOpen in
     ret (db1, db2, open))
      (DatabaseConnection.mkProcess SingletonRegistry.empty 0 [])
    = (Ok (VRef 0, VRef 0, VBool true), p') /\
    DatabaseConnection.invocations p' = 1 /\
    SingletonRegistry.heap (DatabaseConnection.world p')
    = [] ++ [<["isConnected" := VBool true]> DatabaseConnection.fresh] /\
    DatabaseConnection.console p'
    = [] ++ ["Connecting to database: mongodb://localhost:27017/myapp"].
Proof.
  apply (db_instances_share_one_connection
           (DatabaseConnection.mkProcess SingletonRegistry.empty 0 [])).
  reflexivity.
Defined.
